(** * Snapshot persistence of the Firecracker VMM: [vmm/src/persist.rs]

    A shallow embedding of [persist.rs] (create and restore of a microVM
    snapshot).  The collaborators that live outside this file (the VMM's
    [save_state], the guest memory dumper, the [snapshot] crate, the
    [cpuid] crate, the host kernel) are given as oracles; the file system
    is a map from paths to byte contents, and every call the code makes to
    the outside is recorded in a trace, so that the order of effects can
    be stated. *)

From Stdlib Require Import ZArith Lia Ascii.
From stdpp Require Import base gmap strings list pretty.

Open Scope Z_scope.

(** ** Rust's [Result] and panics *)

Inductive result (A E : Type) : Type :=
| Ok (a : A)
| Err (e : E).
Arguments Ok {A E} a.
Arguments Err {A E} e.

(** The outcome of a function that may panic (index out of bounds). *)
Inductive outcome (A : Type) : Type :=
| Done (a : A)
| Panic (msg : string).
Arguments Done {A} a.
Arguments Panic {A} msg.

(** ** Errors of the collaborators (opaque payloads) *)

(** [std::io::Error], identified by its raw OS error. *)
Inductive IoError : Type := io_error (errno : Z).
Definition ENOENT : IoError := io_error 2.

(** [memory_snapshot::Error]. *)
Inductive MemoryError : Type :=
| WriteMemory (code : Z)
| FileHandle (e : IoError).

(** [snapshot::Error]. *)
Inductive SnapshotError : Type :=
| Crc64 (crc : Z)
| InvalidDataVersion (v : Z)
| InvalidMagic (m : Z)
| InvalidSnapshotSize
| Io (errno : Z)
| Versionize (code : Z).

(** [vstate::vcpu::Error], [vstate::vm::Error], [device_manager::persist::Error],
    [StartMicrovmError], [crate::Error]: opaque codes. *)
Definition VcpuError := Z.
Definition VmError := Z.
Definition DevicePersistError := Z.
Definition StartMicrovmError := Z.
Definition VmmError := Z.

Module MicrovmStateError.
Inductive t : Type :=
  | InvalidInput
  | NotAllowed (msg : string)
  | RestoreDevices (e : DevicePersistError)
  | RestoreVcpuState (e : VcpuError)
  | RestoreVmState (e : VmError)
  | SaveVcpuState (e : VcpuError)
  | SaveVmState (e : VmError)
  | SignalVcpu (e : VcpuError)
  | UnexpectedVcpuResponse.
End MicrovmStateError.

Module CreateSnapshotError.
Inductive t : Type :=
  | DirtyBitmap
  | InvalidVersion
  | InvalidVmState (e : VmError)
  | Memory (e : MemoryError)
  | MemoryBackingFile (e : IoError)
  | MicrovmState (e : MicrovmStateError.t)
  | SerializeMicrovmState (e : SnapshotError)
  | SnapshotBackingFile (e : IoError)
  | TooManyDevices (n : Z).
End CreateSnapshotError.

Module LoadSnapshotError.
Inductive t : Type :=
  | BuildMicroVm (e : StartMicrovmError)
  | DeserializeMemory (e : MemoryError)
  | DeserializeMicrovmState (e : SnapshotError)
  | MemoryBackingFile (e : IoError)
  | ResumeMicroVm (e : VmmError)
  | SnapshotBackingFile (e : IoError)
  | SnapshotBackingFileMetadata (e : IoError)
  | CpuVendorMismatch (msg : string).
End LoadSnapshotError.

(** ** Data model *)

(** Bytes are integers in [0, 256). *)
Definition byte := Z.

Record VmInfo : Type := { mem_size_mib : Z (* u64 *) }.

Record GuestMemoryRegionState : Type := {
  base_address : Z;
  size : Z;
  offset : Z
}.

Record GuestMemoryState : Type := { regions : list GuestMemoryRegionState }.

(** The VM-wide KVM state, opaque to this file. *)
Record VmState : Type := { vm_state_blob : list byte }.

(** One CPUID leaf, as in [kvm_cpuid_entry2]. *)
Record CpuIdEntry : Type := {
  function : Z;
  index : Z;
  flags : Z;
  eax : Z;
  ebx : Z;
  ecx : Z;
  edx : Z
}.

Record VcpuState : Type := {
  cpuid : list CpuIdEntry;
  vcpu_regs_blob : list byte
}.

Record DeviceStates : Type := {
  block_devices : list (list byte);
  net_devices : list (list byte);
  vsock_device : option (list byte);
  balloon_device : option (list byte)
}.

Record MicrovmState : Type := {
  vm_info : VmInfo;
  memory_state : GuestMemoryState;
  vm_state : VmState;
  vcpu_states : list VcpuState;
  device_states : DeviceStates
}.

(** ** The version map of the [versionize] crate

    Modelled from the spec: a chain of data versions 1, 2, 3, ...; each
    entry records the type versions declared at that data version.
    [VersionMap::new()] holds exactly one data version. *)
Record VersionMap : Type := { versions : list (list (string * Z)) }.

Definition VersionMap_new : VersionMap := {| versions := [[]] |}.

Definition new_version (vm : VersionMap) : VersionMap :=
  {| versions := versions vm ++ [[]] |}.

Definition latest_version (vm : VersionMap) : Z := Z.of_nat (length (versions vm)).

(** ** Constants *)

Definition FC_V0_23_SNAP_VERSION : Z := 1.
Definition FC_V0_23_IRQ_NUMBER : Z := 16.
(** [arch::IRQ_BASE] is a parameter of the definitions below; Rust evaluates
    [FC_V0_23_IRQ_NUMBER - IRQ_BASE] as a [u32] constant, which compiles only
    when [IRQ_BASE <= 16]. *)
Definition FC_V0_23_MAX_DEVICES (IRQ_BASE : Z) : Z := FC_V0_23_IRQ_NUMBER - IRQ_BASE.

(** ** The world: a file system and a trace of effects *)

Record OpenOptions : Type := {
  oo_read : bool;
  oo_write : bool;
  oo_create : bool;
  oo_truncate : bool
}.

(** [File::open]. *)
Definition opts_read : OpenOptions :=
  {| oo_read := true; oo_write := false; oo_create := false; oo_truncate := false |}.

(** Region index to bit-packed dirty-page words, as [get_dirty_bitmap] returns. *)
Definition DirtyBitmap := list (nat * list Z).

Inductive Event : Type :=
| EvSaveState
| EvOpen (p : string) (opts : OpenOptions)
| EvSetLen (p : string) (len : Z)
| EvGetDirtyBitmap
| EvDumpDirty (p : string) (bitmap : DirtyBitmap)
| EvDump (p : string)
| EvSnapshotSave (p : string) (data_version : Z)
| EvMetadata (p : string)
| EvSnapshotLoad (p : string) (len : Z)
| EvClose (p : string).

Record World : Type := {
  fs : gmap string (list byte);
  trace : list Event
}.

(** ** Collaborators *)

(** The outside world's answers: failures of the system calls, the memory
    dumper of [memory_snapshot.rs], and the [snapshot] crate.

    Modelled from the spec: [Snapshot::save] writes magic, data version,
    the versioned encoding and the CRC sequentially into the writer, from
    the writer's position; [snapshot_save] gives the bytes it writes and
    whether it fails.  [Snapshot::load] reads the file, bounded by the
    length it is given. *)
Record Env : Type := {
  open_error : string -> option IoError;
  set_len_error : string -> option IoError;
  metadata_error : string -> option IoError;
  dump_error : option MemoryError;
  dump_dirty_error : DirtyBitmap -> option MemoryError;
  snapshot_save : VersionMap -> Z -> MicrovmState -> list byte * option SnapshotError;
  snapshot_load : list byte -> Z -> VersionMap -> result MicrovmState SnapshotError;
  (** The 12 vendor bytes of the host's CPUID leaf 0. *)
  host_vendor_id : list byte
}.

Record MMIODeviceManager : Type := { used_irqs_count : Z (* usize *) }.

(** The guest memory, as the lengths in bytes of its regions. *)
Record GuestMemoryMmap : Type := { region_lens : list Z }.

(** The parts of [Vmm] that [persist.rs] reads. *)
Record Vmm : Type := {
  vmm_save_state : result MicrovmState MicrovmStateError.t;
  guest_memory : GuestMemoryMmap;
  vmm_dirty_bitmap : option DirtyBitmap;
  mmio_device_manager : MMIODeviceManager
}.

Module Lib.
(** Modelled from the spec: [crate::mem_size_mib], the total size of the
    guest memory regions in MiB. *)
Definition mem_size_mib (gm : GuestMemoryMmap) : Z :=
    Z.shiftr (fold_right Z.add 0 (region_lens gm)) 20.
End Lib.

Inductive SnapshotType : Type := Diff | Full.

Record CreateSnapshotParams : Type := {
  snapshot_path : string;
  mem_file_path : string;
  snapshot_type : SnapshotType;
  version : option string
}.

(** ** A state and error monad over the world *)

Definition M (E A : Type) : Type := World -> World * result A E.

Definition ret {E A} (a : A) : M E A := fun w => (w, Ok a).
Definition throw {E A} (e : E) : M E A := fun w => (w, Err e).
Definition bind {E A B} (m : M E A) (k : A -> M E B) : M E B :=
  fun w => match m w with
           | (w1, Ok a) => k a w1
           | (w1, Err e) => (w1, Err e)
           end.
Definition map_err {E E' A} (f : E -> E') (m : M E A) : M E' A :=
  fun w => match m w with
           | (w1, Ok a) => (w1, Ok a)
           | (w1, Err e) => (w1, Err (f e))
           end.
Definition of_result {E A} (r : result A E) : M E A :=
  fun w => (w, r).

Notation "x <- m ;; k" := (bind m (fun x => k))
  (at level 100, m at next level, right associativity).

Definition emit {E} (ev : Event) : M E unit :=
  fun w => ({| fs := fs w; trace := trace w ++ [ev] |}, Ok tt).

Definition set_file {E} (p : string) (c : list byte) : M E unit :=
  fun w => ({| fs := <[p := c]> (fs w); trace := trace w |}, Ok tt).

Definition get_file {E} (p : string) : M E (option (list byte)) :=
  fun w => (w, Ok (fs w !! p)).

(** Dropping a [File] closes it, on every path out of its scope. *)
Definition with_close {E A} (p : string) (m : M E A) : M E A :=
  fun w => match m w with
           | (w1, r) => ({| fs := fs w1; trace := trace w1 ++ [EvClose p] |}, r)
           end.

Section WithEnv.
Variable env : Env.

(** [OpenOptions::open]. *)
Definition open (opts : OpenOptions) (p : string) : M IoError unit :=
  match open_error env p with
  | Some e => throw e
  | None =>
      c <- get_file p ;;
      match c with
      | Some c => _ <- set_file p (if oo_truncate opts then [] else c) ;; emit (EvOpen p opts)
      | None =>
          if oo_create opts then _ <- set_file p [] ;; emit (EvOpen p opts)
          else throw ENOENT
      end
  end.

(** [File::set_len]: truncate, or extend with zero bytes. *)
Definition set_len (p : string) (len : Z) : M IoError unit :=
  match set_len_error env p with
  | Some e => throw e
  | None =>
      c <- get_file p ;;
      _ <- set_file p (resize (Z.to_nat len) 0 (default [] c)) ;;
      emit (EvSetLen p len)
  end.

(** [std::fs::metadata(p).len()]. *)
Definition metadata_len (p : string) : M IoError Z :=
  match metadata_error env p with
  | Some e => throw e
  | None =>
      c <- get_file p ;;
      match c with
      | Some c => _ <- emit (EvMetadata p) ;; ret (Z.of_nat (length c))
      | None => throw ENOENT
      end
  end.

(** Sequential writes from the start of a freshly opened file: the bytes
    written replace a prefix, the rest of the file is left as it was. *)
Definition write_from_start (bs c : list byte) : list byte :=
  bs ++ drop (length bs) c.

(** [Snapshot::new(version_map, data_version).save(&mut file, state)]. *)
Definition snapshot_save_to (p : string) (vm : VersionMap) (dv : Z) (st : MicrovmState)
  : M SnapshotError unit :=
  c <- get_file p ;;
  let '(bs, err) := snapshot_save env vm dv st in
  _ <- set_file p (write_from_start bs (default [] c)) ;;
  _ <- emit (EvSnapshotSave p dv) ;;
  match err with
  | Some e => throw e
  | None => ret tt
  end.

(** [Snapshot::load(&mut file, len, version_map)]. *)
Definition snapshot_load_from (p : string) (len : Z) (vm : VersionMap)
  : M SnapshotError MicrovmState :=
  c <- get_file p ;;
  _ <- emit (EvSnapshotLoad p len) ;;
  of_result (snapshot_load env (default [] c) len vm).

(** [GuestMemoryMmap::dump] and [dump_dirty] of [memory_snapshot.rs]: the
    call and its outcome (the bytes they write are not modelled). *)
Definition dump (p : string) : M MemoryError unit :=
  _ <- emit (EvDump p) ;;
  match dump_error env with Some e => throw e | None => ret tt end.

Definition dump_dirty (p : string) (bm : DirtyBitmap) : M MemoryError unit :=
  _ <- emit (EvDumpDirty p bm) ;;
  match dump_dirty_error env bm with Some e => throw e | None => ret tt end.

End WithEnv.

(** [Vmm::save_state] and [Vmm::get_dirty_bitmap]. *)
Definition save_state (vmm : Vmm) : M MicrovmStateError.t MicrovmState :=
  _ <- emit EvSaveState ;; of_result (vmm_save_state vmm).

Definition get_dirty_bitmap (vmm : Vmm) : M unit DirtyBitmap :=
  _ <- emit EvGetDirtyBitmap ;;
  match vmm_dirty_bitmap vmm with Some bm => ret bm | None => throw tt end.

(** ** The [cpuid] crate

    Modelled from the spec: the vendor id is read from CPUID leaf 0, as
    the 12 bytes of EBX, EDX and ECX (little endian); extraction fails when
    leaf 0 is absent. *)
Definition u32_le_bytes (x : Z) : list byte :=
  [x mod 256; (x / 256) mod 256; (x / 65536) mod 256; (x / 16777216) mod 256].

Definition get_vendor_id_from_cpuid (entries : list CpuIdEntry) : option (list byte) :=
  match list_find (fun e => function e = 0) entries with
  | Some (_, e) => Some (u32_le_bytes (ebx e) ++ u32_le_bytes (edx e) ++ u32_le_bytes (ecx e))
  | None => None
  end.

(** [get_vendor_id_from_host] reads leaf 0 through [get_cpuid(0, 0)], which
    fails only for a leaf above the highest supported one; leaf 0 never is,
    so on x86_64 (the only target of [persist.rs]) the read succeeds. *)
Definition get_vendor_id_from_host (env : Env) : option (list byte) := Some (host_vendor_id env).

(** ** [persist.rs] *)

Definition u64_wrap (x : Z) : Z := x mod 2 ^ 64.

Definition opts_write_create_truncate : OpenOptions :=
  {| oo_read := false; oo_write := true; oo_create := true; oo_truncate := true |}.

Definition opts_create_write : OpenOptions :=
  {| oo_read := false; oo_write := true; oo_create := true; oo_truncate := false |}.

Section Persist.

Variable env : Env.
(** [arch::IRQ_BASE]. *)
Variable IRQ_BASE : Z.
(** [version_map::FC_VERSION_TO_SNAP_VERSION]: product version to data version. *)
Variable FC_VERSION_TO_SNAP_VERSION : gmap string Z.

(** [validate_devices_number]. *)
Definition validate_devices_number (device_number : Z) : result unit CreateSnapshotError.t :=
  if device_number >? FC_V0_23_MAX_DEVICES IRQ_BASE then
    Err (CreateSnapshotError.TooManyDevices device_number)
  else Ok tt.

(** The translation of the microVM version to its snapshot data format,
    the [let snapshot_data_version = match version { ... }?] of
    [snapshot_state_to_file]. *)
Definition snapshot_data_version (version : option string) (version_map : VersionMap)
    (device_manager : MMIODeviceManager) : result Z CreateSnapshotError.t :=
  match version with
  | Some version =>
      match FC_VERSION_TO_SNAP_VERSION !! version with
      | Some data_version =>
          if Z.eqb data_version FC_V0_23_SNAP_VERSION then
            match validate_devices_number (used_irqs_count device_manager) with
            | Err e => Err e
            | Ok _ => Ok FC_V0_23_SNAP_VERSION
            end
          else Ok data_version
      | None => Err CreateSnapshotError.InvalidVersion
      end
  | None => Ok (latest_version version_map)
  end.

(** [snapshot_state_to_file]. *)
Definition snapshot_state_to_file (microvm_state : MicrovmState) (snapshot_path : string)
    (version : option string) (version_map : VersionMap)
    (device_manager : MMIODeviceManager) : M CreateSnapshotError.t unit :=
  _ <- map_err CreateSnapshotError.SnapshotBackingFile
         (open env opts_create_write snapshot_path) ;;
  with_close snapshot_path (
    (* Translate the microVM version to its corresponding snapshot data format. *)
    snapshot_data_version <-
      of_result (snapshot_data_version version version_map device_manager) ;;
    map_err CreateSnapshotError.SerializeMicrovmState
      (snapshot_save_to env snapshot_path version_map snapshot_data_version microvm_state)).

(** [snapshot_memory_to_file]. *)
Definition snapshot_memory_to_file (vmm : Vmm) (mem_file_path : string)
    (snapshot_type : SnapshotType) : M CreateSnapshotError.t unit :=
  _ <- map_err CreateSnapshotError.MemoryBackingFile
         (open env opts_write_create_truncate mem_file_path) ;;
  with_close mem_file_path (
    (* Set the length of the file to the full size of the memory area. *)
    let mem_size_mib := Lib.mem_size_mib (guest_memory vmm) in
    _ <- map_err CreateSnapshotError.MemoryBackingFile
           (set_len env mem_file_path (u64_wrap (mem_size_mib * 1024 * 1024))) ;;
    match snapshot_type with
    | Diff =>
        dirty_bitmap <- map_err (fun _ => CreateSnapshotError.DirtyBitmap)
                          (get_dirty_bitmap vmm) ;;
        map_err CreateSnapshotError.Memory (dump_dirty env mem_file_path dirty_bitmap)
    | Full => map_err CreateSnapshotError.Memory (dump env mem_file_path)
    end).

(** [create_snapshot]. *)
Definition create_snapshot (vmm : Vmm) (params : CreateSnapshotParams)
    (version_map : VersionMap) : M CreateSnapshotError.t unit :=
  microvm_state <- map_err CreateSnapshotError.MicrovmState (save_state vmm) ;;
  _ <- snapshot_memory_to_file vmm (mem_file_path params) (snapshot_type params) ;;
  _ <- snapshot_state_to_file microvm_state (snapshot_path params) (version params)
         version_map (mmio_device_manager vmm) ;;
  ret tt.

(** [snapshot_state_from_file]. *)
Definition snapshot_state_from_file (snapshot_path : string) (version_map : VersionMap)
  : M LoadSnapshotError.t MicrovmState :=
  _ <- map_err LoadSnapshotError.SnapshotBackingFile (open env opts_read snapshot_path) ;;
  with_close snapshot_path (
    snapshot_len <- map_err LoadSnapshotError.SnapshotBackingFileMetadata
                      (metadata_len env snapshot_path) ;;
    map_err LoadSnapshotError.DeserializeMicrovmState
      (snapshot_load_from env snapshot_path snapshot_len version_map)).

(** Rust's [{:?}] of a byte array: [[71, 101, 110]]. *)
Definition debug_bytes (bs : list byte) : string :=
  match bs with
  | [] => "[]"
  | b :: bs' => "[" +:+ pretty b +:+ foldr (fun x acc => ", " +:+ pretty x +:+ acc) "" bs' +:+ "]"
  end.

(** [validate_x86_64_cpu_vendor]; the log lines it writes are not modelled. *)
Definition validate_x86_64_cpu_vendor (microvm_state : MicrovmState)
  : outcome (result unit LoadSnapshotError.t) :=
  match get_vendor_id_from_host env with
  | None => Done (Err (LoadSnapshotError.CpuVendorMismatch "Failed to read vendor from CPUID."))
  | Some host_vendor_id =>
      match vcpu_states microvm_state with
      | [] => Panic "index out of bounds: the len is 0 but the index is 0"
      | vcpu0 :: _ =>
          match get_vendor_id_from_cpuid (cpuid vcpu0) with
          | None =>
              Done (Err (LoadSnapshotError.CpuVendorMismatch "Failed to read vendor from CPUID."))
          | Some snapshot_vendor_id =>
              if decide (host_vendor_id <> snapshot_vendor_id) then
                let error_string :=
                  "Host CPU vendor id: " +:+ debug_bytes host_vendor_id +:+
                  ", Snapshot CPU vendor id: " +:+ debug_bytes snapshot_vendor_id in
                Done (Err (LoadSnapshotError.CpuVendorMismatch error_string))
              else Done (Ok tt)
          end
      end
  end.

End Persist.

(** ** The [Versionize] encodings

    Modelled from the spec (the [versionize] crate and the [Versionize]
    impls of the field types live outside [persist.rs]): every type
    provides [serialize] and [deserialize] against a version map and a data
    version; [serialize] fails ([None]) when the value cannot be encoded at
    that version; [deserialize] reads from the front of the input and
    leaves the rest.  Integers are little endian as [bincode] writes them;
    a [Vec] is its length as a [u64] followed by its elements; an [Option]
    is a tag byte followed by the value; a struct without version
    attributes, as [#[derive(Versionize)]] generates it, is its fields in
    declaration order. *)
Record Codec (T : Type) : Type := {
  serialize : VersionMap -> Z -> T -> option (list byte);
  deserialize : VersionMap -> Z -> list byte -> option (T * list byte)
}.
Arguments serialize {T} c vm v x.
Arguments deserialize {T} c vm v bs.

Fixpoint le_bytes (n : nat) (x : Z) : list byte :=
  match n with
  | O => []
  | S n => x mod 256 :: le_bytes n (x / 256)
  end.

Definition le_value (bs : list byte) : Z := foldr (fun b acc => b + 256 * acc) 0 bs.

(** An [n]-byte unsigned integer. *)
Definition uint_codec (n : nat) : Codec Z := {|
  serialize := fun _ _ x =>
    if (0 <=? x) && (x <? 2 ^ (8 * Z.of_nat n)) then Some (le_bytes n x) else None;
  deserialize := fun _ _ bs =>
    if (length bs <? n)%nat then None else Some (le_value (take n bs), drop n bs)
|}.

Definition u8_codec := uint_codec 1.
Definition u32_codec := uint_codec 4.
Definition u64_codec := uint_codec 8.

Section Vec.
Context {T : Type} (c : Codec T).

Fixpoint serialize_elems (vm : VersionMap) (v : Z) (xs : list T) : option (list byte) :=
  match xs with
  | [] => Some []
  | x :: xs => b ← serialize c vm v x; bs ← serialize_elems vm v xs; Some (b ++ bs)
  end.

Fixpoint deserialize_elems (vm : VersionMap) (v : Z) (n : nat) (bs : list byte)
  : option (list T * list byte) :=
  match n with
  | O => Some ([], bs)
  | S n =>
      '(x, bs1) ← deserialize c vm v bs;
      '(xs, bs2) ← deserialize_elems vm v n bs1;
      Some (x :: xs, bs2)
  end.

Definition vec_codec : Codec (list T) := {|
  serialize := fun vm v xs =>
    len ← serialize u64_codec vm v (Z.of_nat (length xs));
    elems ← serialize_elems vm v xs;
    Some (len ++ elems);
  deserialize := fun vm v bs =>
    '(len, bs1) ← deserialize u64_codec vm v bs;
    deserialize_elems vm v (Z.to_nat len) bs1
|}.

Definition option_codec : Codec (option T) := {|
  serialize := fun vm v o =>
    match o with
    | None => Some [0]
    | Some x => b ← serialize c vm v x; Some (1 :: b)
    end;
  deserialize := fun vm v bs =>
    match bs with
    | 0 :: bs1 => Some (None, bs1)
    | 1 :: bs1 => '(x, bs2) ← deserialize c vm v bs1; Some (Some x, bs2)
    | _ => None
    end
|}.
End Vec.

(** Two fields in sequence, and a record seen through its fields. *)
Definition pair_codec {A B} (ca : Codec A) (cb : Codec B) : Codec (A * B) := {|
  serialize := fun vm v '(a, b) =>
    ba ← serialize ca vm v a; bb ← serialize cb vm v b; Some (ba ++ bb);
  deserialize := fun vm v bs =>
    '(a, bs1) ← deserialize ca vm v bs;
    '(b, bs2) ← deserialize cb vm v bs1;
    Some ((a, b), bs2)
|}.

Definition iso_codec {A B} (to : A -> B) (from : B -> A) (c : Codec B) : Codec A := {|
  serialize := fun vm v x => serialize c vm v (to x);
  deserialize := fun vm v bs => '(y, bs1) ← deserialize c vm v bs; Some (from y, bs1)
|}.

(** The [Versionize] contract of a type: what it serializes at a data
    version, it deserializes back at that version, whatever follows. *)
Definition roundtrips {T} (c : Codec T) : Prop :=
  forall vm v x bs rest,
    serialize c vm v x = Some bs -> deserialize c vm v (bs ++ rest) = Some (x, rest).

(** [#[derive(Versionize)]] on [VmInfo]. *)
Definition VmInfo_codec : Codec VmInfo :=
  iso_codec mem_size_mib (fun m => {| mem_size_mib := m |}) u64_codec.

Section MicrovmStateVersionize.
(** The [Versionize] impls of the field types. *)
Variable GuestMemoryState_codec : Codec GuestMemoryState.
Variable VmState_codec : Codec VmState.
Variable VcpuState_codec : Codec VcpuState.
Variable DeviceStates_codec : Codec DeviceStates.

(** [#[derive(Versionize)]] on [MicrovmState]: the fields in order. *)
Definition MicrovmState_serialize (vm : VersionMap) (v : Z) (s : MicrovmState)
  : option (list byte) :=
  b1 ← serialize VmInfo_codec vm v (vm_info s);
  b2 ← serialize GuestMemoryState_codec vm v (memory_state s);
  b3 ← serialize VmState_codec vm v (vm_state s);
  b4 ← serialize (vec_codec VcpuState_codec) vm v (vcpu_states s);
  b5 ← serialize DeviceStates_codec vm v (device_states s);
  Some (b1 ++ b2 ++ b3 ++ b4 ++ b5).

Definition MicrovmState_deserialize (vm : VersionMap) (v : Z) (bs : list byte)
  : option (MicrovmState * list byte) :=
  '(vm_info, bs) ← deserialize VmInfo_codec vm v bs;
  '(memory_state, bs) ← deserialize GuestMemoryState_codec vm v bs;
  '(vm_state, bs) ← deserialize VmState_codec vm v bs;
  '(vcpu_states, bs) ← deserialize (vec_codec VcpuState_codec) vm v bs;
  '(device_states, bs) ← deserialize DeviceStates_codec vm v bs;
  Some ({| vm_info := vm_info; memory_state := memory_state; vm_state := vm_state;
           vcpu_states := vcpu_states; device_states := device_states |}, bs).
End MicrovmStateVersionize.

(** Encodings for the field types, built from the same pieces. *)
Definition region_codec : Codec GuestMemoryRegionState :=
  iso_codec (fun r => (base_address r, (size r, offset r)))
    (fun '(a, (s, o)) => {| base_address := a; size := s; offset := o |})
    (pair_codec u64_codec (pair_codec u64_codec u64_codec)).

Definition sample_GuestMemoryState_codec : Codec GuestMemoryState :=
  iso_codec regions (fun rs => {| regions := rs |}) (vec_codec region_codec).

Definition sample_VmState_codec : Codec VmState :=
  iso_codec vm_state_blob (fun b => {| vm_state_blob := b |}) (vec_codec u8_codec).

Definition cpuid_entry_codec : Codec CpuIdEntry :=
  iso_codec (fun e => (function e, (index e, (flags e, (eax e, (ebx e, (ecx e, edx e)))))))
    (fun '(f, (i, (fl, (a, (b, (c, d)))))) =>
       {| function := f; index := i; flags := fl; eax := a; ebx := b; ecx := c; edx := d |})
    (pair_codec u32_codec (pair_codec u32_codec (pair_codec u32_codec
      (pair_codec u32_codec (pair_codec u32_codec (pair_codec u32_codec u32_codec)))))).

Definition sample_VcpuState_codec : Codec VcpuState :=
  iso_codec (fun s => (cpuid s, vcpu_regs_blob s))
    (fun '(c, r) => {| cpuid := c; vcpu_regs_blob := r |})
    (pair_codec (vec_codec cpuid_entry_codec) (vec_codec u8_codec)).

Definition sample_DeviceStates_codec : Codec DeviceStates :=
  iso_codec (fun d => (block_devices d, (net_devices d, (vsock_device d, balloon_device d))))
    (fun '(b, (n, (vs, bl))) =>
       {| block_devices := b; net_devices := n; vsock_device := vs; balloon_device := bl |})
    (pair_codec (vec_codec (vec_codec u8_codec))
      (pair_codec (vec_codec (vec_codec u8_codec))
        (pair_codec (option_codec (vec_codec u8_codec)) (option_codec (vec_codec u8_codec))))).

(** ** Vocabulary for the statements *)

(** The world once [vmm.save_state()] has been called. *)
Definition after_save (w : World) : World :=
  {| fs := fs w; trace := trace w ++ [EvSaveState] |}.

(** The memory step's calls all succeed: the file opens, its length is set,
    and the dump (after the dirty bitmap, for a diff snapshot) succeeds. *)
Definition memory_step_ok (env : Env) (vmm : Vmm) (params : CreateSnapshotParams) : Prop :=
  open_error env (mem_file_path params) = None /\
  set_len_error env (mem_file_path params) = None /\
  match snapshot_type params with
  | Full => dump_error env = None
  | Diff => exists bm, vmm_dirty_bitmap vmm = Some bm /\ dump_dirty_error env bm = None
  end.

(** The outcome of [Snapshot::save] at a data version, as
    [snapshot_state_to_file] returns it. *)
Definition saved_result (env : Env) (vm : VersionMap) (dv : Z) (st : MicrovmState)
  : result unit CreateSnapshotError.t :=
  match snd (snapshot_save env vm dv st) with
  | None => Ok tt
  | Some e => Err (CreateSnapshotError.SerializeMicrovmState e)
  end.

(** The same VMM with another number of attached devices. *)
Definition with_used_irqs (vmm : Vmm) (k : Z) : Vmm :=
  {| vmm_save_state := vmm_save_state vmm; guest_memory := guest_memory vmm;
     vmm_dirty_bitmap := vmm_dirty_bitmap vmm;
     mmio_device_manager := {| used_irqs_count := k |} |}.

(** ** Concrete inputs *)

(** "GenuineIntel" and "AuthenticAMD" as CPUID leaf 0. *)
Definition leaf0_intel : CpuIdEntry :=
  {| function := 0; index := 0; flags := 0; eax := 13;
     ebx := 1970169159; ecx := 1818588270; edx := 1231384169 |}.
Definition leaf0_amd : CpuIdEntry :=
  {| function := 0; index := 0; flags := 0; eax := 13;
     ebx := 1752462657; ecx := 1145913699; edx := 1769238117 |}.

Definition intel_vendor : list byte := u32_le_bytes 1970169159 ++ u32_le_bytes 1231384169 ++ u32_le_bytes 1818588270.

Definition sample_devices : DeviceStates :=
  {| block_devices := [[1]]; net_devices := [[2]]; vsock_device := Some [3];
     balloon_device := Some [4] |}.

Definition sample_state (vcpus : list VcpuState) : MicrovmState :=
  {| vm_info := {| mem_size_mib := 1 |};
     memory_state := {| regions := [{| base_address := 0; size := 1048576; offset := 0 |}] |};
     vm_state := {| vm_state_blob := [7; 7] |};
     vcpu_states := vcpus;
     device_states := sample_devices |}.

Definition intel_vcpu : VcpuState := {| cpuid := [leaf0_intel]; vcpu_regs_blob := [] |}.
Definition amd_vcpu : VcpuState := {| cpuid := [leaf0_amd]; vcpu_regs_blob := [] |}.

(** A host on which every call succeeds; [Snapshot::save] writes [encoding]. *)
Definition sample_env (host : list byte) (encoding : list byte) : Env :=
  {| open_error := fun _ => None;
     set_len_error := fun _ => None;
     metadata_error := fun _ => None;
     dump_error := None;
     dump_dirty_error := fun _ => None;
     snapshot_save := fun _ _ _ => (encoding, None);
     snapshot_load := fun _ _ _ => Ok (sample_state [intel_vcpu]);
     host_vendor_id := host |}.

Definition sample_vmm (devices : Z) : Vmm :=
  {| vmm_save_state := Ok (sample_state [intel_vcpu]);
     guest_memory := {| region_lens := [1048576] |};
     vmm_dirty_bitmap := Some [];
     mmio_device_manager := {| used_irqs_count := devices |} |}.

Definition sample_table : gmap string Z := <["0.23.0" := 1]> (<["0.24.0" := 2]> ∅).

Definition sample_params (v : option string) : CreateSnapshotParams :=
  {| snapshot_path := "snap"; mem_file_path := "mem"; snapshot_type := Full; version := v |}.

(** A world where "snap" already holds ten bytes. *)
Definition sample_world : World :=
  {| fs := <["snap" := replicate 10 9]> ∅; trace := [] |}.

(** ** Error messages: the [Display] impls *)

(** The [Debug] ([{:?}]) and [Display] ([{}]) renderings of the error types of
    other crates are parameters. *)
Section Display.
Variable dbg_DevicePersistError : DevicePersistError -> string.
Variable dbg_VcpuError : VcpuError -> string.
Variable dbg_VmError : VmError -> string.
Variable dbg_MemoryError : MemoryError -> string.
Variable fmt_MemoryError : MemoryError -> string.
Variable dbg_IoError : IoError -> string.
Variable fmt_IoError : IoError -> string.
Variable dbg_SnapshotError : SnapshotError -> string.
Variable fmt_StartMicrovmError : StartMicrovmError -> string.
Variable fmt_VmmError : VmmError -> string.
Variable IRQ_BASE : Z.

(** [impl Display for MicrovmStateError]. *)
Definition MicrovmStateError_fmt (e : MicrovmStateError.t) : string :=
  match e with
  | MicrovmStateError.InvalidInput => "Provided MicroVM state is invalid."
  | MicrovmStateError.NotAllowed msg => "Operation not allowed: " +:+ msg
  | MicrovmStateError.RestoreDevices err =>
      "Cannot restore devices. Error: " +:+ dbg_DevicePersistError err
  | MicrovmStateError.RestoreVcpuState err =>
      "Cannot restore Vcpu state. Error: " +:+ dbg_VcpuError err
  | MicrovmStateError.RestoreVmState err => "Cannot restore Vm state. Error: " +:+ dbg_VmError err
  | MicrovmStateError.SaveVcpuState err => "Cannot save Vcpu state. Error: " +:+ dbg_VcpuError err
  | MicrovmStateError.SaveVmState err => "Cannot save Vm state. Error: " +:+ dbg_VmError err
  | MicrovmStateError.SignalVcpu err => "Cannot signal Vcpu: " +:+ dbg_VcpuError err
  | MicrovmStateError.UnexpectedVcpuResponse => "Vcpu is in unexpected state."
  end.

(** [impl Display for CreateSnapshotError]; the [usize] and [u32] are printed
    in decimal. *)
Definition CreateSnapshotError_fmt (e : CreateSnapshotError.t) : string :=
  match e with
  | CreateSnapshotError.DirtyBitmap => "Cannot get dirty bitmap"
  | CreateSnapshotError.InvalidVersion =>
      "Cannot translate microVM version to snapshot data version"
  | CreateSnapshotError.InvalidVmState err => "Cannot save Vm state. Error: " +:+ dbg_VmError err
  | CreateSnapshotError.Memory err => "Cannot write memory file: " +:+ dbg_MemoryError err
  | CreateSnapshotError.MemoryBackingFile err => "Cannot open memory file: " +:+ dbg_IoError err
  | CreateSnapshotError.MicrovmState err =>
      "Cannot save microvm state: " +:+ MicrovmStateError_fmt err
  | CreateSnapshotError.SerializeMicrovmState err =>
      "Cannot serialize MicrovmState: " +:+ dbg_SnapshotError err
  | CreateSnapshotError.SnapshotBackingFile err => "Cannot open snapshot file: " +:+ dbg_IoError err
  | CreateSnapshotError.TooManyDevices val =>
      "Too many devices attached: " +:+ pretty val +:+
      ". The maximum number allowed for the snapshot data version requested is " +:+
      pretty (FC_V0_23_MAX_DEVICES IRQ_BASE) +:+ "."
  end.

(** [impl Display for LoadSnapshotError]. *)
Definition LoadSnapshotError_fmt (e : LoadSnapshotError.t) : string :=
  match e with
  | LoadSnapshotError.BuildMicroVm err =>
      "Cannot build a microVM from snapshot: " +:+ fmt_StartMicrovmError err
  | LoadSnapshotError.DeserializeMemory err => "Cannot deserialize memory: " +:+ fmt_MemoryError err
  | LoadSnapshotError.DeserializeMicrovmState err =>
      "Cannot deserialize MicrovmState: " +:+ dbg_SnapshotError err
  | LoadSnapshotError.MemoryBackingFile err => "Cannot open memory file: " +:+ fmt_IoError err
  | LoadSnapshotError.ResumeMicroVm err =>
      "Failed to resume Vm after loading snapshot: " +:+ fmt_VmmError err
  | LoadSnapshotError.SnapshotBackingFile err => "Cannot open snapshot file: " +:+ fmt_IoError err
  | LoadSnapshotError.SnapshotBackingFileMetadata err =>
      "Cannot retrieve file metadata: " +:+ fmt_IoError err
  | LoadSnapshotError.CpuVendorMismatch err => "Snapshot cpu vendor mismatch: " +:+ err
  end.

End Display.

(** [std::mem::discriminant] of the error enums: the variant, as its index in
    the declaration. *)
Definition MicrovmStateError_discriminant (e : MicrovmStateError.t) : nat :=
  match e with
  | MicrovmStateError.InvalidInput => 0
  | MicrovmStateError.NotAllowed _ => 1
  | MicrovmStateError.RestoreDevices _ => 2
  | MicrovmStateError.RestoreVcpuState _ => 3
  | MicrovmStateError.RestoreVmState _ => 4
  | MicrovmStateError.SaveVcpuState _ => 5
  | MicrovmStateError.SaveVmState _ => 6
  | MicrovmStateError.SignalVcpu _ => 7
  | MicrovmStateError.UnexpectedVcpuResponse => 8
  end%nat.

Definition CreateSnapshotError_discriminant (e : CreateSnapshotError.t) : nat :=
  match e with
  | CreateSnapshotError.DirtyBitmap => 0
  | CreateSnapshotError.InvalidVersion => 1
  | CreateSnapshotError.InvalidVmState _ => 2
  | CreateSnapshotError.Memory _ => 3
  | CreateSnapshotError.MemoryBackingFile _ => 4
  | CreateSnapshotError.MicrovmState _ => 5
  | CreateSnapshotError.SerializeMicrovmState _ => 6
  | CreateSnapshotError.SnapshotBackingFile _ => 7
  | CreateSnapshotError.TooManyDevices _ => 8
  end%nat.

Definition LoadSnapshotError_discriminant (e : LoadSnapshotError.t) : nat :=
  match e with
  | LoadSnapshotError.BuildMicroVm _ => 0
  | LoadSnapshotError.DeserializeMemory _ => 1
  | LoadSnapshotError.DeserializeMicrovmState _ => 2
  | LoadSnapshotError.MemoryBackingFile _ => 3
  | LoadSnapshotError.ResumeMicroVm _ => 4
  | LoadSnapshotError.SnapshotBackingFile _ => 5
  | LoadSnapshotError.SnapshotBackingFileMetadata _ => 6
  | LoadSnapshotError.CpuVendorMismatch _ => 7
  end%nat.

(** ** Restoring a snapshot *)

(** [vmm_config::snapshot::LoadSnapshotParams]: the fields [persist.rs] reads. *)
Module LoadSnapshotParams.
Record t : Type := {
  snapshot_path : string;
  mem_file_path : string;
  enable_diff_snapshots : bool
}.
End LoadSnapshotParams.

(** The collaborators of the restore path outside this file:
    [GuestMemoryMmap::restore] (of [memory_snapshot.rs]), given the bytes of
    the memory file, and [builder::build_microvm_from_snapshot], which gets
    the event manager and the seccomp filter passed through unchanged (what
    it does to them is not modelled). *)
Record RestoreEnv (EventManager BpfProgramRef : Type) : Type := {
  guest_memory_restore :
    list byte -> GuestMemoryState -> bool -> result GuestMemoryMmap MemoryError;
  build_microvm_from_snapshot :
    EventManager -> MicrovmState -> GuestMemoryMmap -> bool -> BpfProgramRef ->
    result Vmm StartMicrovmError
}.
Arguments guest_memory_restore {EventManager BpfProgramRef} r _ _ _.
Arguments build_microvm_from_snapshot {EventManager BpfProgramRef} r _ _ _ _ _.

Section Restore.
Variable env : Env.
Context {EventManager BpfProgramRef : Type}.
Variable renv : RestoreEnv EventManager BpfProgramRef.

(** [guest_memory_from_file]; the file is dropped (closed) on return. *)
Definition guest_memory_from_file (mem_file_path : string) (mem_state : GuestMemoryState)
    (track_dirty_pages : bool) : M LoadSnapshotError.t GuestMemoryMmap :=
  _ <- map_err LoadSnapshotError.MemoryBackingFile (open env opts_read mem_file_path) ;;
  with_close mem_file_path (
    c <- get_file mem_file_path ;;
    map_err LoadSnapshotError.DeserializeMemory
      (of_result (guest_memory_restore renv (default [] c) mem_state track_dirty_pages))).

(** [restore_from_snapshot]: its [?]s in sequence, with the panic of
    [validate_x86_64_cpu_vendor] passed on. *)
Definition restore_from_snapshot (event_manager : EventManager)
    (seccomp_filter : BpfProgramRef) (params : LoadSnapshotParams.t)
    (version_map : VersionMap) (w : World)
  : World * outcome (result Vmm LoadSnapshotError.t) :=
  let track_dirty_pages := LoadSnapshotParams.enable_diff_snapshots params in
  match snapshot_state_from_file env (LoadSnapshotParams.snapshot_path params) version_map w with
  | (w1, Err e) => (w1, Done (Err e))
  | (w1, Ok microvm_state) =>
      match validate_x86_64_cpu_vendor env microvm_state with
      | Panic msg => (w1, Panic msg)
      | Done (Err e) => (w1, Done (Err e))
      | Done (Ok _) =>
          match guest_memory_from_file (LoadSnapshotParams.mem_file_path params)
                  (memory_state microvm_state) track_dirty_pages w1 with
          | (w2, Err e) => (w2, Done (Err e))
          | (w2, Ok guest_memory) =>
              (w2, Done (match build_microvm_from_snapshot renv event_manager microvm_state
                                 guest_memory track_dirty_pages seccomp_filter with
                         | Ok vmm => Ok vmm
                         | Err e => Err (LoadSnapshotError.BuildMicroVm e)
                         end))
          end
      end
  end.

End Restore.

(** ** Concrete inputs of the restore path *)

(** [env] with [Snapshot::load] returning [st]. *)
Definition with_loaded (env : Env) (st : MicrovmState) : Env :=
  {| open_error := open_error env; set_len_error := set_len_error env;
     metadata_error := metadata_error env; dump_error := dump_error env;
     dump_dirty_error := dump_dirty_error env; snapshot_save := snapshot_save env;
     snapshot_load := fun _ _ _ => Ok st; host_vendor_id := host_vendor_id env |}.

(** [env] with [File::set_len] failing with [ENOSPC]. *)
Definition set_len_fails (env : Env) : Env :=
  {| open_error := open_error env; set_len_error := fun _ => Some (io_error 28);
     metadata_error := metadata_error env; dump_error := dump_error env;
     dump_dirty_error := dump_dirty_error env; snapshot_save := snapshot_save env;
     snapshot_load := snapshot_load env; host_vendor_id := host_vendor_id env |}.

(** Memory restore and build both succeed. *)
Definition sample_renv : RestoreEnv unit unit :=
  {| guest_memory_restore := fun c _ _ => Ok {| region_lens := [Z.of_nat (length c)] |};
     build_microvm_from_snapshot := fun _ st gm track _ =>
       Ok {| vmm_save_state := Ok st; guest_memory := gm;
             vmm_dirty_bitmap := if track then Some [] else None;
             mmio_device_manager := {| used_irqs_count := 0 |} |} |}.

Definition sample_load_params : LoadSnapshotParams.t :=
  {| LoadSnapshotParams.snapshot_path := "snap"; LoadSnapshotParams.mem_file_path := "mem";
     LoadSnapshotParams.enable_diff_snapshots := true |}.

(** [sample_world] with a memory file "mem" as well. *)
Definition sample_restore_world : World :=
  {| fs := <["mem" := [0; 0; 0; 0]]> (fs sample_world); trace := [] |}.

(** No character of [s] is a dot. *)
Fixpoint no_dot (s : string) : Prop :=
  match s with
  | EmptyString => True
  | String c s' => c <> "."%char /\ no_dot s'
  end.

(** * Properties *)

(** ** Strings *)

Lemma string_app_nil (b : string) : "" +:+ b = b.
Proof. reflexivity. Qed.

Lemma string_app_cons ch (a b : string) : String ch a +:+ b = String ch (a +:+ b).
Proof. reflexivity. Qed.

Lemma string_app_assoc (a b c : string) : (a +:+ b) +:+ c = a +:+ b +:+ c.
Proof.
  induction a as [|ch a IH]; [reflexivity|].
  rewrite !string_app_cons. now rewrite IH.
Qed.

Lemma string_app_empty_r (a : string) : a +:+ "" = a.
Proof.
  induction a as [|ch a IH]; [reflexivity|].
  rewrite string_app_cons. now rewrite IH.
Qed.

(** ** The encodings round trip *)

Lemma le_bytes_length n x : length (le_bytes n x) = n.
Proof. revert x; induction n as [|n IH]; intros x; simpl; [reflexivity | now rewrite IH]. Qed.

Lemma le_value_cons b bs : le_value (b :: bs) = b + 256 * le_value bs.
Proof. reflexivity. Qed.

Lemma le_value_le_bytes n x :
  0 <= x < 2 ^ (8 * Z.of_nat n) -> le_value (le_bytes n x) = x.
Proof.
  revert x; induction n as [|n IH]; intros x Hx.
  - simpl in Hx. simpl. lia.
  - simpl le_bytes. rewrite le_value_cons, IH.
    + pose proof (Z.div_mod x 256 ltac:(lia)). lia.
    + split; [apply Z.div_pos; lia|].
      apply Z.div_lt_upper_bound; [lia|].
      replace (8 * Z.of_nat (S n)) with (8 * Z.of_nat n + 8) in Hx by lia.
      rewrite Z.pow_add_r in Hx by lia. lia.
Qed.

Lemma uint_roundtrip n : roundtrips (uint_codec n).
Proof.
  intros vm v x bs rest H. simpl in H.
  destruct ((0 <=? x) && (x <? 2 ^ (8 * Z.of_nat n))) eqn:E; [|discriminate].
  injection H as <-. apply andb_true_iff in E as [E1 E2].
  apply Z.leb_le in E1. apply Z.ltb_lt in E2.
  simpl. rewrite length_app, le_bytes_length.
  replace ((n + length rest <? n)%nat) with false by (symmetry; apply Nat.ltb_ge; lia).
  rewrite take_app_length' by (now rewrite le_bytes_length).
  rewrite drop_app_length' by (now rewrite le_bytes_length).
  now rewrite le_value_le_bytes.
Qed.

Section CodecLemmas.
Context {T : Type} (c : Codec T) (Hc : roundtrips c).

Lemma elems_roundtrip vm v xs bs rest :
  serialize_elems c vm v xs = Some bs ->
  deserialize_elems c vm v (length xs) (bs ++ rest) = Some (xs, rest).
Proof.
  revert bs; induction xs as [|x xs IH]; intros bs H; simpl in H.
  - injection H as <-. reflexivity.
  - destruct (serialize c vm v x) as [b|] eqn:E1; [|discriminate]. simpl in H.
    destruct (serialize_elems c vm v xs) as [bs'|] eqn:E2; [|discriminate]. simpl in H.
    injection H as <-. simpl.
    rewrite <- app_assoc, (Hc _ _ _ _ _ E1). simpl.
    now rewrite (IH _ eq_refl).
Qed.

Lemma vec_roundtrip : roundtrips (vec_codec c).
Proof.
  intros vm v xs bs rest H. cbn [serialize vec_codec] in H.
  destruct (serialize u64_codec vm v (Z.of_nat (length xs))) as [lb|] eqn:E1;
    [|discriminate]. simpl in H.
  destruct (serialize_elems c vm v xs) as [eb|] eqn:E2; [|discriminate]. simpl in H.
  injection H as <-. cbn [deserialize vec_codec].
  rewrite <- app_assoc.
  rewrite (uint_roundtrip _ _ _ _ _ _ E1). simpl.
  rewrite Nat2Z.id. now apply elems_roundtrip.
Qed.

Lemma option_roundtrip : roundtrips (option_codec c).
Proof.
  intros vm v o bs rest H. destruct o as [x|]; simpl in H.
  - destruct (serialize c vm v x) as [b|] eqn:E; [|discriminate]. simpl in H.
    injection H as <-. simpl. now rewrite (Hc _ _ _ _ _ E).
  - injection H as <-. reflexivity.
Qed.
End CodecLemmas.

Lemma pair_roundtrip {A B} (ca : Codec A) (cb : Codec B) :
  roundtrips ca -> roundtrips cb -> roundtrips (pair_codec ca cb).
Proof.
  intros Ha Hb vm v [a b] bs rest H. simpl in H.
  destruct (serialize ca vm v a) as [ba|] eqn:E1; [|discriminate]. simpl in H.
  destruct (serialize cb vm v b) as [bb|] eqn:E2; [|discriminate]. simpl in H.
  injection H as <-. simpl.
  rewrite <- app_assoc, (Ha _ _ _ _ _ E1). simpl.
  now rewrite (Hb _ _ _ _ _ E2).
Qed.

Lemma iso_roundtrip {A B} (to : A -> B) (from : B -> A) (c : Codec B) :
  (forall x, from (to x) = x) -> roundtrips c -> roundtrips (iso_codec to from c).
Proof.
  intros Hft Hc vm v x bs rest H. simpl in H |- *.
  rewrite (Hc _ _ _ _ _ H). simpl. now rewrite Hft.
Qed.

Lemma VmInfo_roundtrip : roundtrips VmInfo_codec.
Proof. apply iso_roundtrip; [now intros [] | apply uint_roundtrip]. Qed.

Lemma sample_codecs_roundtrip :
  roundtrips sample_GuestMemoryState_codec /\ roundtrips sample_VmState_codec /\
  roundtrips sample_VcpuState_codec /\ roundtrips sample_DeviceStates_codec.
Proof.
  pose proof (uint_roundtrip 1) as H1. pose proof (uint_roundtrip 4) as H4.
  pose proof (uint_roundtrip 8) as H8.
  split; [|split; [|split]].
  - apply iso_roundtrip; [now intros []|].
    apply vec_roundtrip, iso_roundtrip; [now intros []|].
    repeat apply pair_roundtrip; assumption.
  - apply iso_roundtrip; [now intros []|]. now apply vec_roundtrip.
  - apply iso_roundtrip; [now intros []|]. apply pair_roundtrip; [|now apply vec_roundtrip].
    apply vec_roundtrip, iso_roundtrip; [now intros []|].
    repeat apply pair_roundtrip; assumption.
  - apply iso_roundtrip; [now intros []|].
    repeat apply pair_roundtrip;
      repeat (apply vec_roundtrip || apply option_roundtrip); assumption.
Qed.

Section MicrovmStateRoundtrip.
Variable GuestMemoryState_codec : Codec GuestMemoryState.
Variable VmState_codec : Codec VmState.
Variable VcpuState_codec : Codec VcpuState.
Variable DeviceStates_codec : Codec DeviceStates.
Hypothesis GuestMemoryState_rt : roundtrips GuestMemoryState_codec.
Hypothesis VmState_rt : roundtrips VmState_codec.
Hypothesis VcpuState_rt : roundtrips VcpuState_codec.
Hypothesis DeviceStates_rt : roundtrips DeviceStates_codec.

Lemma MicrovmState_roundtrip_rest vm v s bs rest :
  MicrovmState_serialize GuestMemoryState_codec VmState_codec VcpuState_codec
    DeviceStates_codec vm v s = Some bs ->
  MicrovmState_deserialize GuestMemoryState_codec VmState_codec VcpuState_codec
    DeviceStates_codec vm v (bs ++ rest) = Some (s, rest).
Proof.
  unfold MicrovmState_serialize, MicrovmState_deserialize. intros H.
  destruct (serialize VmInfo_codec vm v (vm_info s)) as [b1|] eqn:E1; [|discriminate].
  cbn [mbind option_bind] in H.
  destruct (serialize GuestMemoryState_codec vm v (memory_state s)) as [b2|] eqn:E2;
    [|discriminate]. cbn [mbind option_bind] in H.
  destruct (serialize VmState_codec vm v (vm_state s)) as [b3|] eqn:E3; [|discriminate].
  cbn [mbind option_bind] in H.
  destruct (serialize (vec_codec VcpuState_codec) vm v (vcpu_states s)) as [b4|] eqn:E4;
    [|discriminate]. cbn [mbind option_bind] in H.
  destruct (serialize DeviceStates_codec vm v (device_states s)) as [b5|] eqn:E5;
    [|discriminate]. cbn [mbind option_bind] in H.
  injection H as <-.
  rewrite <- !app_assoc.
  rewrite (VmInfo_roundtrip _ _ _ _ _ E1). cbn [mbind option_bind].
  rewrite (GuestMemoryState_rt _ _ _ _ _ E2). cbn [mbind option_bind].
  rewrite (VmState_rt _ _ _ _ _ E3). cbn [mbind option_bind].
  rewrite (vec_roundtrip _ VcpuState_rt _ _ _ _ _ E4). cbn [mbind option_bind].
  rewrite (DeviceStates_rt _ _ _ _ _ E5). cbn [mbind option_bind].
  now destruct s.
Qed.

(** C4: for every MicrovmState [s] and data version [v] at which it is
    representable (its serialization succeeds), deserializing the bytes at
    [v] with the same version map gives back [s], with no input left over;
    provided each field type meets the [Versionize] contract. *)
Theorem MicrovmState_versionize_roundtrip vm v s bs :
  MicrovmState_serialize GuestMemoryState_codec VmState_codec VcpuState_codec
    DeviceStates_codec vm v s = Some bs ->
  MicrovmState_deserialize GuestMemoryState_codec VmState_codec VcpuState_codec
    DeviceStates_codec vm v bs = Some (s, []).
Proof.
  intros H. rewrite <- (app_nil_r bs). now apply MicrovmState_roundtrip_rest.
Qed.
End MicrovmStateRoundtrip.

Lemma MicrovmState_versionize_roundtrip_witness :
  exists bs,
    MicrovmState_serialize sample_GuestMemoryState_codec sample_VmState_codec
      sample_VcpuState_codec sample_DeviceStates_codec VersionMap_new 1
      (sample_state [intel_vcpu; amd_vcpu]) = Some bs /\
    MicrovmState_deserialize sample_GuestMemoryState_codec sample_VmState_codec
      sample_VcpuState_codec sample_DeviceStates_codec VersionMap_new 1 bs =
      Some (sample_state [intel_vcpu; amd_vcpu], []).
Proof.
  destruct sample_codecs_roundtrip as (H1 & H2 & H3 & H4).
  eexists; split.
  - vm_compute. reflexivity.
  - apply (MicrovmState_versionize_roundtrip _ _ _ _ H1 H2 H3 H4).
    vm_compute. reflexivity.
Defined.

(** ** Device count at the 0.23 data version *)

(** C7: [validate_devices_number] accepts exactly the counts up to
    [FC_V0_23_MAX_DEVICES = 16 - IRQ_BASE] and rejects every larger count
    [n] with [TooManyDevices n]; in particular the limit itself is accepted
    and the limit plus one rejected. *)
Theorem validate_devices_number_v0_limit (IRQ_BASE n : Z) :
  ((n <= FC_V0_23_MAX_DEVICES IRQ_BASE /\ validate_devices_number IRQ_BASE n = Ok tt) \/
   (FC_V0_23_MAX_DEVICES IRQ_BASE < n /\
    validate_devices_number IRQ_BASE n = Err (CreateSnapshotError.TooManyDevices n))) /\
  FC_V0_23_MAX_DEVICES IRQ_BASE = 16 - IRQ_BASE /\
  validate_devices_number IRQ_BASE (FC_V0_23_MAX_DEVICES IRQ_BASE) = Ok tt /\
  validate_devices_number IRQ_BASE (FC_V0_23_MAX_DEVICES IRQ_BASE + 1) =
    Err (CreateSnapshotError.TooManyDevices (FC_V0_23_MAX_DEVICES IRQ_BASE + 1)).
Proof.
  unfold validate_devices_number. split; [|split; [reflexivity|split]].
  - destruct (n >? FC_V0_23_MAX_DEVICES IRQ_BASE) eqn:E.
    + right. apply Z.gtb_lt in E. split; [lia | reflexivity].
    + left. rewrite Z.gtb_ltb in E. apply Z.ltb_ge in E. split; [lia | reflexivity].
  - now rewrite Z.gtb_ltb, Z.ltb_irrefl.
  - replace (FC_V0_23_MAX_DEVICES IRQ_BASE + 1 >? FC_V0_23_MAX_DEVICES IRQ_BASE) with true
      by (symmetry; apply Z.gtb_lt; lia).
    reflexivity.
Qed.

(** ** CPU vendor check *)

(** C2: with a first vCPU state present, [validate_x86_64_cpu_vendor] returns
    [Ok] exactly when the host vendor id and the one of [vcpu_states[0].cpuid]
    are both read and equal; when either cannot be read it fails with
    [CpuVendorMismatch("Failed to read vendor from CPUID.")]; when they differ
    it fails with a [CpuVendorMismatch] whose message contains both ids (as
    [{:?}] renders them). *)
Theorem validate_x86_64_cpu_vendor_result env st vcpu0 rest
    (Hvcpus : vcpu_states st = vcpu0 :: rest) :
  (validate_x86_64_cpu_vendor env st = Done (Ok tt) <->
   exists id, get_vendor_id_from_host env = Some id /\
              get_vendor_id_from_cpuid (cpuid vcpu0) = Some id) /\
  ((get_vendor_id_from_host env = None \/ get_vendor_id_from_cpuid (cpuid vcpu0) = None) ->
   validate_x86_64_cpu_vendor env st =
     Done (Err (LoadSnapshotError.CpuVendorMismatch "Failed to read vendor from CPUID."))) /\
  (forall host snap,
     get_vendor_id_from_host env = Some host ->
     get_vendor_id_from_cpuid (cpuid vcpu0) = Some snap ->
     host <> snap ->
     exists msg,
       validate_x86_64_cpu_vendor env st = Done (Err (LoadSnapshotError.CpuVendorMismatch msg)) /\
       (exists pre post, msg = pre +:+ debug_bytes host +:+ post) /\
       (exists pre post, msg = pre +:+ debug_bytes snap +:+ post)).
Proof.
  unfold validate_x86_64_cpu_vendor. rewrite Hvcpus.
  split; [|split].
  - destruct (get_vendor_id_from_host env) as [h|];
      [|split; [discriminate | intros (id & H & _); discriminate]].
    destruct (get_vendor_id_from_cpuid (cpuid vcpu0)) as [s|];
      [|split; [discriminate | intros (id & _ & H); discriminate]].
    destruct (decide (h <> s)) as [Hne|Heq].
    + split; [discriminate|]. intros (id & H1 & H2). injection H1 as ->.
      injection H2 as ->. contradiction.
    + split; [|reflexivity]. intros _. exists h. split; [reflexivity|].
      destruct (decide (h = s)) as [->|]; [reflexivity | contradiction].
  - intros [H|H]; rewrite H; [reflexivity|].
    destruct (get_vendor_id_from_host env); reflexivity.
  - intros host snap Hh Hs Hne. rewrite Hh, Hs.
    destruct (decide (host <> snap)) as [_|]; [|contradiction].
    eexists; split; [reflexivity|split].
    + exists "Host CPU vendor id: ", (", Snapshot CPU vendor id: " +:+ debug_bytes snap).
      reflexivity.
    + exists ("Host CPU vendor id: " +:+ debug_bytes host +:+ ", Snapshot CPU vendor id: "), "".
      rewrite string_app_empty_r, !string_app_assoc. reflexivity.
Qed.

Lemma validate_x86_64_cpu_vendor_result_witness :
  vcpu_states (sample_state [amd_vcpu]) = [amd_vcpu] /\
  exists msg,
    validate_x86_64_cpu_vendor (sample_env intel_vendor []) (sample_state [amd_vcpu]) =
      Done (Err (LoadSnapshotError.CpuVendorMismatch msg)) /\
    (exists pre post, msg = pre +:+ debug_bytes intel_vendor +:+ post).
Proof.
  split; [reflexivity|].
  destruct (validate_x86_64_cpu_vendor_result (sample_env intel_vendor [])
              (sample_state [amd_vcpu]) amd_vcpu [] eq_refl) as (_ & _ & H).
  destruct (H intel_vendor (u32_le_bytes 1752462657 ++ u32_le_bytes 1769238117 ++
                            u32_le_bytes 1145913699) eq_refl eq_refl)
    as (msg & Hr & Hh & _).
  - vm_compute. discriminate.
  - exists msg. split; assumption.
Defined.

(** C9: [validate_x86_64_cpu_vendor] indexes [vcpu_states[0]] once the host
    vendor is read, which always succeeds; so for every microVM state with
    no vCPU state it panics (index out of bounds) instead of returning. *)
Theorem validate_x86_64_cpu_vendor_empty_vcpus env st
    (Hvcpus : vcpu_states st = []) :
  exists msg, validate_x86_64_cpu_vendor env st = Panic msg.
Proof.
  unfold validate_x86_64_cpu_vendor, get_vendor_id_from_host. rewrite Hvcpus.
  eexists. reflexivity.
Qed.

Lemma validate_x86_64_cpu_vendor_empty_vcpus_witness :
  vcpu_states (sample_state []) = [] /\
  exists msg, validate_x86_64_cpu_vendor (sample_env intel_vendor []) (sample_state []) =
                Panic msg.
Proof.
  split; [reflexivity|].
  apply (validate_x86_64_cpu_vendor_empty_vcpus (sample_env intel_vendor []) (sample_state [])).
  reflexivity.
Defined.

(** ** Running [create_snapshot] *)

Ltac run_m :=
  unfold bind, map_err, with_close, get_file, set_file, emit, throw, ret, of_result;
  cbn -[u64_wrap Lib.mem_size_mib resize].

(** What [snapshot_memory_to_file] does once the file opens and its length
    is set. *)
Lemma snapshot_memory_to_file_run env vmm mp ty w :
  open_error env mp = None -> set_len_error env mp = None ->
  let len := u64_wrap (Lib.mem_size_mib (guest_memory vmm) * 1024 * 1024) in
  let pre := trace w ++ [EvOpen mp opts_write_create_truncate; EvSetLen mp len] in
  let fs' := <[mp := resize (Z.to_nat len) 0 []]> (fs w) in
  snapshot_memory_to_file env vmm mp ty w =
  match ty with
  | Full =>
      ({| fs := fs'; trace := pre ++ [EvDump mp; EvClose mp] |},
       match dump_error env with
       | None => Ok tt | Some e => Err (CreateSnapshotError.Memory e) end)
  | Diff =>
      match vmm_dirty_bitmap vmm with
      | None => ({| fs := fs'; trace := pre ++ [EvGetDirtyBitmap; EvClose mp] |},
                 Err CreateSnapshotError.DirtyBitmap)
      | Some bm =>
          ({| fs := fs'; trace := pre ++ [EvGetDirtyBitmap; EvDumpDirty mp bm; EvClose mp] |},
           match dump_dirty_error env bm with
           | None => Ok tt | Some e => Err (CreateSnapshotError.Memory e) end)
      end
  end.
Proof.
  intros Ho Hs len pre fs'.
  unfold snapshot_memory_to_file, open, set_len. rewrite Ho, Hs. run_m.
  destruct (fs w !! mp); cbn -[u64_wrap Lib.mem_size_mib resize].
  all: rewrite lookup_insert_eq; cbn -[u64_wrap Lib.mem_size_mib resize];
       rewrite insert_insert_eq.
  all: destruct ty; unfold get_dirty_bitmap, dump, dump_dirty; run_m.
  all: try destruct (vmm_dirty_bitmap vmm); try destruct (dump_error env);
       try destruct (dump_dirty_error env _); cbn -[u64_wrap Lib.mem_size_mib resize].
  all: unfold pre, fs', len; rewrite <- !app_assoc; reflexivity.
Qed.

(** The memory step fails only through [MemoryBackingFile] before the file
    opens; it leaves every other file as it was. *)
Lemma snapshot_memory_to_file_open_fails env vmm mp ty w e :
  open_error env mp = Some e ->
  snapshot_memory_to_file env vmm mp ty w = (w, Err (CreateSnapshotError.MemoryBackingFile e)).
Proof. intros Ho. unfold snapshot_memory_to_file, open. rewrite Ho. reflexivity. Qed.

Lemma snapshot_memory_to_file_frame env vmm mp ty w p :
  p <> mp -> fs (fst (snapshot_memory_to_file env vmm mp ty w)) !! p = fs w !! p.
Proof.
  intros Hp. unfold snapshot_memory_to_file, open, set_len.
  destruct (open_error env mp); [reflexivity|]. run_m.
  destruct (fs w !! mp); cbn -[u64_wrap Lib.mem_size_mib resize].
  all: destruct (set_len_error env mp); run_m;
       [now rewrite lookup_insert_ne by congruence|].
  all: rewrite lookup_insert_eq; cbn -[u64_wrap Lib.mem_size_mib resize].
  all: destruct ty; unfold get_dirty_bitmap, dump, dump_dirty; run_m.
  all: try destruct (vmm_dirty_bitmap vmm); try destruct (dump_error env);
       try destruct (dump_dirty_error env _); cbn -[u64_wrap Lib.mem_size_mib resize].
  all: rewrite !lookup_insert_ne by congruence; reflexivity.
Qed.

(** What [snapshot_state_to_file] does once the state file opens. *)
Lemma snapshot_state_to_file_run env IRQ_BASE table st sp ver vm dm w :
  open_error env sp = None ->
  let old := default [] (fs w !! sp) in
  snapshot_state_to_file env IRQ_BASE table st sp ver vm dm w =
  match snapshot_data_version IRQ_BASE table ver vm dm with
  | Err e =>
      ({| fs := <[sp := old]> (fs w);
          trace := trace w ++ [EvOpen sp opts_create_write; EvClose sp] |}, Err e)
  | Ok dv =>
      ({| fs := <[sp := write_from_start (fst (snapshot_save env vm dv st)) old]> (fs w);
          trace := trace w ++ [EvOpen sp opts_create_write; EvSnapshotSave sp dv; EvClose sp] |},
       saved_result env vm dv st)
  end.
Proof.
  intros Ho old. unfold snapshot_state_to_file, open. rewrite Ho. run_m.
  assert (Hins : forall c, fs w !! sp = Some c -> <[sp := c]> (fs w) = fs w)
    by (intros c Hc; now apply insert_id).
  destruct (fs w !! sp) as [c|] eqn:Ec; cbn -[u64_wrap Lib.mem_size_mib resize].
  all: destruct (snapshot_data_version IRQ_BASE table ver vm dm) as [dv|e];
       cbn -[u64_wrap Lib.mem_size_mib resize].
  all: try (unfold snapshot_save_to; run_m; rewrite lookup_insert_eq;
            cbn -[u64_wrap Lib.mem_size_mib resize];
            unfold saved_result; destruct (snapshot_save env vm dv st) as [bs [err|]];
            run_m; rewrite insert_insert_eq).
  all: unfold old; rewrite ?Ec; cbn; rewrite <- ?app_assoc; reflexivity.
Qed.

Lemma create_snapshot_eq env IRQ_BASE table vmm params vm w :
  create_snapshot env IRQ_BASE table vmm params vm w =
  match vmm_save_state vmm with
  | Err e => (after_save w, Err (CreateSnapshotError.MicrovmState e))
  | Ok st =>
      match snapshot_memory_to_file env vmm (mem_file_path params) (snapshot_type params)
              (after_save w) with
      | (w2, Err e) => (w2, Err e)
      | (w2, Ok _) =>
          match snapshot_state_to_file env IRQ_BASE table st (snapshot_path params)
                  (version params) vm (mmio_device_manager vmm) w2 with
          | (w3, Ok _) => (w3, Ok tt)
          | (w3, Err e) => (w3, Err e)
          end
      end
  end.
Proof.
  unfold create_snapshot, save_state, bind, map_err, emit, of_result, ret, after_save.
  cbn -[snapshot_memory_to_file snapshot_state_to_file].
  destruct (vmm_save_state vmm) as [st|e]; [|reflexivity].
  destruct (snapshot_memory_to_file _ _ _ _ _) as [w2 [[]|e]]; [|reflexivity].
  destruct (snapshot_state_to_file _ _ _ _ _ _ _ _ _) as [w3 [[]|e]]; reflexivity.
Qed.

(** ** Creating a snapshot *)

(** The memory size in bytes fits in a [u64]. *)
Lemma u64_wrap_mem_size gm :
  0 <= fold_right Z.add 0 (region_lens gm) < 2^64 ->
  u64_wrap (Lib.mem_size_mib gm * 1024 * 1024) = Lib.mem_size_mib gm * 2^20.
Proof.
  intros Hr. unfold u64_wrap, Lib.mem_size_mib.
  rewrite Z.shiftr_div_pow2 by lia.
  set (s := fold_right Z.add 0 (region_lens gm)) in *.
  assert (H1 : 2^20 * (s / 2^20) <= s) by (apply Z.mul_div_le; lia).
  assert (H2 : 0 <= s / 2^20) by (apply Z.div_pos; lia).
  replace (s / 2^20 * 1024 * 1024) with (s / 2^20 * 2^20) by lia.
  apply Z.mod_small. lia.
Qed.

Lemma memory_step_ok_result env vmm params w :
  memory_step_ok env vmm params ->
  snd (snapshot_memory_to_file env vmm (mem_file_path params) (snapshot_type params) w) = Ok tt.
Proof.
  intros (Ho & Hs & Hd). rewrite (snapshot_memory_to_file_run env vmm _ _ w Ho Hs).
  destruct (snapshot_type params).
  - destruct Hd as (bm & -> & ->). reflexivity.
  - rewrite Hd. reflexivity.
Qed.

Lemma create_snapshot_after_memory env IRQ_BASE table vmm params vm w st :
  vmm_save_state vmm = Ok st -> memory_step_ok env vmm params ->
  create_snapshot env IRQ_BASE table vmm params vm w =
  snapshot_state_to_file env IRQ_BASE table st (snapshot_path params) (version params) vm
    (mmio_device_manager vmm)
    (fst (snapshot_memory_to_file env vmm (mem_file_path params) (snapshot_type params)
            (after_save w))).
Proof.
  intros Hst Hmem. rewrite create_snapshot_eq, Hst.
  pose proof (memory_step_ok_result env vmm params (after_save w) Hmem) as Hr.
  destruct (snapshot_memory_to_file _ _ _ _ _) as [w2 r2]. cbn in Hr |- *. subst r2.
  destruct (snapshot_state_to_file _ _ _ _ _ _ _ _ _) as [w3 [[]|e]]; reflexivity.
Qed.

(** C5: once the memory file opens (with [truncate]) and its length is set,
    [snapshot_memory_to_file] has set that length to [mem_size_mib * 2^20]
    zero bytes (the size fits in a [u64], so nothing wraps) before any dump;
    then a diff snapshot reads the dirty bitmap, failing with [DirtyBitmap]
    when there is none, and calls [dump_dirty], a full one calls [dump], and
    a dump error comes back as [Memory e]. *)
Theorem snapshot_memory_to_file_len_then_dump env vmm mp ty w
    (Hopen : open_error env mp = None) (Hset : set_len_error env mp = None)
    (Hsize : 0 <= fold_right Z.add 0 (region_lens (guest_memory vmm)) < 2^64) :
  let len := Lib.mem_size_mib (guest_memory vmm) * 2^20 in
  let pre := trace w ++ [EvOpen mp opts_write_create_truncate; EvSetLen mp len] in
  let fs' := <[mp := replicate (Z.to_nat len) 0]> (fs w) in
  oo_truncate opts_write_create_truncate = true /\
  snapshot_memory_to_file env vmm mp ty w =
  match ty with
  | Full =>
      ({| fs := fs'; trace := pre ++ [EvDump mp; EvClose mp] |},
       match dump_error env with
       | None => Ok tt | Some e => Err (CreateSnapshotError.Memory e) end)
  | Diff =>
      match vmm_dirty_bitmap vmm with
      | None => ({| fs := fs'; trace := pre ++ [EvGetDirtyBitmap; EvClose mp] |},
                 Err CreateSnapshotError.DirtyBitmap)
      | Some bm =>
          ({| fs := fs'; trace := pre ++ [EvGetDirtyBitmap; EvDumpDirty mp bm; EvClose mp] |},
           match dump_dirty_error env bm with
           | None => Ok tt | Some e => Err (CreateSnapshotError.Memory e) end)
      end
  end.
Proof.
  intros len pre fs'. split; [reflexivity|].
  rewrite (snapshot_memory_to_file_run env vmm mp ty w Hopen Hset).
  rewrite (u64_wrap_mem_size _ Hsize), resize_nil. reflexivity.
Qed.

Lemma snapshot_memory_to_file_len_then_dump_witness :
  fs (fst (snapshot_memory_to_file (sample_env intel_vendor []) (sample_vmm 0) "mem" Full sample_world))
    !! "mem" = Some (replicate (Z.to_nat (1 * 2^20)) 0).
Proof.
  destruct (snapshot_memory_to_file_len_then_dump (sample_env intel_vendor []) (sample_vmm 0) "mem" Full
              sample_world eq_refl eq_refl) as [_ ->].
  - cbn. lia.
  - cbn [fst fs]. rewrite lookup_insert_eq. reflexivity.
Defined.


(** C6: [create_snapshot] calls [save_state] first, and its error comes back
    as [MicrovmState e] with no file touched; a failing memory step ends the
    run with its error; otherwise the run is, in order: [save_state], the
    memory file opened and its length set, the dirty bitmap read (diff
    snapshot only), the dump, the memory file closed, and only then the
    state file's events, which start by opening it (and are none when that
    open fails). *)
Theorem create_snapshot_step_order env IRQ_BASE table vmm params vm w :
  let mp := mem_file_path params in
  let sp := snapshot_path params in
  let run := create_snapshot env IRQ_BASE table vmm params vm w in
  (forall e, vmm_save_state vmm = Err e ->
     run = (after_save w, Err (CreateSnapshotError.MicrovmState e))) /\
  (forall st w2 e, vmm_save_state vmm = Ok st ->
     snapshot_memory_to_file env vmm mp (snapshot_type params) (after_save w) = (w2, Err e) ->
     run = (w2, Err e)) /\
  (forall st, vmm_save_state vmm = Ok st -> memory_step_ok env vmm params ->
     exists mid dump_ev state_ev,
       trace (fst run) =
         trace w ++ [EvSaveState; EvOpen mp opts_write_create_truncate;
                     EvSetLen mp (u64_wrap (Lib.mem_size_mib (guest_memory vmm) * 1024 * 1024))]
                 ++ mid ++ [dump_ev; EvClose mp] ++ state_ev /\
       ((mid = [] /\ dump_ev = EvDump mp) \/
        exists bm, mid = [EvGetDirtyBitmap] /\ dump_ev = EvDumpDirty mp bm) /\
       (open_error env sp = None -> exists rest, state_ev = EvOpen sp opts_create_write :: rest) /\
       (open_error env sp <> None -> state_ev = [])).
Proof.
  intros mp sp run. unfold run. split; [|split].
  - intros e He. rewrite create_snapshot_eq, He. reflexivity.
  - intros st w2 e Hst Hm. rewrite create_snapshot_eq, Hst. fold mp. rewrite Hm. reflexivity.
  - intros st Hst Hmem. rewrite (create_snapshot_after_memory _ _ _ _ _ _ _ _ Hst Hmem).
    destruct Hmem as (Ho & Hs & Hd).
    rewrite (snapshot_memory_to_file_run env vmm _ _ _ Ho Hs).
    set (len := u64_wrap _).
    assert (Hstate : forall w2, exists state_ev,
      trace (fst (snapshot_state_to_file env IRQ_BASE table st sp (version params) vm
                    (mmio_device_manager vmm) w2)) = trace w2 ++ state_ev /\
      (open_error env sp = None -> exists rest, state_ev = EvOpen sp opts_create_write :: rest) /\
      (open_error env sp <> None -> state_ev = [])).
    { intros w2. destruct (open_error env sp) as [e|] eqn:Eo.
      - exists []. unfold snapshot_state_to_file, open. rewrite Eo. cbn.
        rewrite app_nil_r. split; [reflexivity | split; [discriminate | reflexivity]].
      - rewrite (snapshot_state_to_file_run env IRQ_BASE table st sp _ vm _ w2 Eo).
        destruct (snapshot_data_version _ _ _ _ _); cbn; eexists;
          (split; [reflexivity | split; [intros _; eexists; reflexivity | congruence]]). }
    destruct (snapshot_type params).
    + destruct Hd as (bm & Hbm & _). rewrite Hbm.
      edestruct Hstate as (state_ev & -> & Hev). cbn [trace after_save].
      exists [EvGetDirtyBitmap], (EvDumpDirty mp bm), state_ev.
      split; [|split; [right; eexists; split; reflexivity | exact Hev]].
      cbn [fst trace]. rewrite <- !app_assoc. reflexivity.
    + edestruct Hstate as (state_ev & -> & Hev). cbn [trace after_save].
      exists [], (EvDump mp), state_ev.
      split; [|split; [left; split; reflexivity | exact Hev]].
      cbn [fst trace]. rewrite <- !app_assoc. reflexivity.
Qed.

Lemma create_snapshot_step_order_witness :
  exists mid dump_ev state_ev,
    trace (fst (create_snapshot (sample_env intel_vendor [1; 2; 3]) 5 sample_table (sample_vmm 0)
                  (sample_params None) VersionMap_new sample_world)) =
      trace sample_world ++
        [EvSaveState; EvOpen "mem" opts_write_create_truncate;
         EvSetLen "mem" (u64_wrap (Lib.mem_size_mib (guest_memory (sample_vmm 0)) * 1024 * 1024))]
        ++ mid ++ [dump_ev; EvClose "mem"] ++ state_ev /\
    ((mid = [] /\ dump_ev = EvDump "mem") \/
     exists bm, mid = [EvGetDirtyBitmap] /\ dump_ev = EvDumpDirty "mem" bm) /\
    (open_error (sample_env intel_vendor [1; 2; 3]) "snap" = None ->
     exists rest, state_ev = EvOpen "snap" opts_create_write :: rest) /\
    (open_error (sample_env intel_vendor [1; 2; 3]) "snap" <> None -> state_ev = []).
Proof.
  destruct (create_snapshot_step_order (sample_env intel_vendor [1; 2; 3]) 5 sample_table (sample_vmm 0)
              (sample_params None) VersionMap_new sample_world) as (_ & _ & H).
  apply (H (sample_state [intel_vcpu]) eq_refl).
  split; [reflexivity | split; reflexivity].
Defined.


(** The state step of [create_snapshot] once the earlier steps succeed. *)
Lemma create_snapshot_state_step env IRQ_BASE table vmm params vm w st :
  vmm_save_state vmm = Ok st -> memory_step_ok env vmm params ->
  open_error env (snapshot_path params) = None ->
  let run := create_snapshot env IRQ_BASE table vmm params vm w in
  match snapshot_data_version IRQ_BASE table (version params) vm (mmio_device_manager vmm) with
  | Err e => snd run = Err e
  | Ok dv => snd run = saved_result env vm dv st /\
             exists pre, trace (fst run) = pre ++ [EvSnapshotSave (snapshot_path params) dv;
                                                   EvClose (snapshot_path params)]
  end.
Proof.
  intros Hst Hmem Ho run. unfold run.
  rewrite (create_snapshot_after_memory _ _ _ _ _ _ _ _ Hst Hmem).
  rewrite (snapshot_state_to_file_run _ _ _ _ _ _ _ _ _ Ho).
  destruct (snapshot_data_version _ _ _ _ _); cbn [fst snd trace]; [|reflexivity].
  split; [reflexivity|]. eexists (_ ++ [_]). rewrite <- app_assoc. reflexivity.
Qed.

Lemma snapshot_state_to_file_dm env IRQ_BASE table st sp ver vm dm1 dm2 :
  snapshot_data_version IRQ_BASE table ver vm dm1 = snapshot_data_version IRQ_BASE table ver vm dm2 ->
  snapshot_state_to_file env IRQ_BASE table st sp ver vm dm1 =
  snapshot_state_to_file env IRQ_BASE table st sp ver vm dm2.
Proof. intros H. unfold snapshot_state_to_file. rewrite H. reflexivity. Qed.

(** C3: once the earlier steps succeed, the data version that [create_snapshot]
    saves at is [latest_version] when no version is asked for, and the data
    version the table maps the tag to otherwise (at the 0.23 data version,
    provided the device count is within its limit); an unknown tag fails
    with [InvalidVersion]. *)
Theorem create_snapshot_data_version env IRQ_BASE table vmm params vm w st
    (Hst : vmm_save_state vmm = Ok st) (Hmem : memory_step_ok env vmm params)
    (Hopen : open_error env (snapshot_path params) = None) :
  let sp := snapshot_path params in
  let run := create_snapshot env IRQ_BASE table vmm params vm w in
  let saved_at dv := snd run = saved_result env vm dv st /\
      exists pre, trace (fst run) = pre ++ [EvSnapshotSave sp dv; EvClose sp] in
  (version params = None -> saved_at (latest_version vm)) /\
  (forall tag dv, version params = Some tag -> table !! tag = Some dv ->
     (dv <> FC_V0_23_SNAP_VERSION \/
      used_irqs_count (mmio_device_manager vmm) <= FC_V0_23_MAX_DEVICES IRQ_BASE) ->
     saved_at dv) /\
  (forall tag, version params = Some tag -> table !! tag = None ->
     snd run = Err CreateSnapshotError.InvalidVersion).
Proof.
  intros sp run saved_at.
  pose proof (create_snapshot_state_step env IRQ_BASE table vmm params vm w st Hst Hmem Hopen)
    as H. cbv zeta in H. fold sp run in H. unfold saved_at.
  unfold snapshot_data_version in H. split; [|split].
  - intros Hv. rewrite Hv in H. exact H.
  - intros tag dv Hv Ht Hcase. rewrite Hv, Ht in H.
    destruct (Z.eqb dv FC_V0_23_SNAP_VERSION) eqn:Hdv; [|exact H].
    apply Z.eqb_eq in Hdv. rewrite Hdv.
    destruct Hcase as [Hcase|Hle]; [contradiction|].
    unfold validate_devices_number in H.
    replace (used_irqs_count (mmio_device_manager vmm) >? FC_V0_23_MAX_DEVICES IRQ_BASE)
      with false in H by (symmetry; rewrite Z.gtb_ltb; apply Z.ltb_ge; lia).
    exact H.
  - intros tag Hv Ht. rewrite Hv, Ht in H. exact H.
Qed.

Lemma create_snapshot_data_version_witness :
  snd (create_snapshot (sample_env intel_vendor [1; 2; 3]) 5 sample_table (sample_vmm 0)
         (sample_params (Some "0.24.0")) VersionMap_new sample_world) =
    saved_result (sample_env intel_vendor [1; 2; 3]) VersionMap_new 2 (sample_state [intel_vcpu]).
Proof.
  destruct (create_snapshot_data_version (sample_env intel_vendor [1; 2; 3]) 5 sample_table (sample_vmm 0)
              (sample_params (Some "0.24.0")) VersionMap_new sample_world
              (sample_state [intel_vcpu]) eq_refl) as (_ & H & _).
  - split; [reflexivity | split; reflexivity].
  - reflexivity.
  - apply (H "0.24.0" 2 eq_refl); [reflexivity | left; discriminate].
Defined.

(** C1 as stated fails: with no version asked for, the snapshot is saved at
    [latest_version] with no device count check, even when that data
    version is the 0.23 one and the count exceeds its limit. *)
Lemma create_snapshot_latest_version_skips_device_check :
  latest_version VersionMap_new = FC_V0_23_SNAP_VERSION /\
  FC_V0_23_MAX_DEVICES 5 < used_irqs_count (mmio_device_manager (sample_vmm 12)) /\
  snd (create_snapshot (sample_env intel_vendor [1; 2; 3]) 5 sample_table (sample_vmm 12)
         (sample_params None) VersionMap_new sample_world) = Ok tt.
Proof. split; [reflexivity | split; [unfold FC_V0_23_MAX_DEVICES, FC_V0_23_IRQ_NUMBER; cbn; lia | vm_compute; reflexivity]]. Qed.

(** C1 (as the code behaves): [TooManyDevices n] is returned when the version
    asked for is a tag the table maps to the 0.23 data version and the
    device count [n] exceeds [FC_V0_23_MAX_DEVICES] (once the earlier steps
    succeed); with no version asked for, or a tag mapped to another data
    version, the device count does not change the run at all. *)
Theorem create_snapshot_device_check env IRQ_BASE table vmm params vm w :
  let n := used_irqs_count (mmio_device_manager vmm) in
  (forall st tag,
     vmm_save_state vmm = Ok st -> memory_step_ok env vmm params ->
     open_error env (snapshot_path params) = None ->
     version params = Some tag -> table !! tag = Some FC_V0_23_SNAP_VERSION ->
     FC_V0_23_MAX_DEVICES IRQ_BASE < n ->
     snd (create_snapshot env IRQ_BASE table vmm params vm w) =
       Err (CreateSnapshotError.TooManyDevices n)) /\
  ((version params = None \/
    exists tag dv, version params = Some tag /\ table !! tag = Some dv /\
                   dv <> FC_V0_23_SNAP_VERSION) ->
   forall k, create_snapshot env IRQ_BASE table (with_used_irqs vmm k) params vm w =
             create_snapshot env IRQ_BASE table vmm params vm w).
Proof.
  intros n. split.
  - intros st tag Hst Hmem Ho Hv Ht Hn.
    pose proof (create_snapshot_state_step env IRQ_BASE table vmm params vm w st Hst Hmem Ho)
      as H. cbv zeta in H.
    unfold snapshot_data_version, validate_devices_number in H. rewrite Hv, Ht in H.
    rewrite Z.eqb_refl in H.
    replace (used_irqs_count (mmio_device_manager vmm) >? FC_V0_23_MAX_DEVICES IRQ_BASE)
      with true in H by (symmetry; apply Z.gtb_lt; unfold n in Hn; lia).
    exact H.
  - intros Hv k. rewrite !create_snapshot_eq.
    change (vmm_save_state (with_used_irqs vmm k)) with (vmm_save_state vmm).
    change (snapshot_memory_to_file env (with_used_irqs vmm k))
      with (snapshot_memory_to_file env vmm).
    change (mmio_device_manager (with_used_irqs vmm k)) with {| used_irqs_count := k |}.
    destruct (vmm_save_state vmm) as [st|e]; [|reflexivity].
    destruct (snapshot_memory_to_file _ _ _ _ _) as [w2 [[]|e]]; [|reflexivity].
    rewrite (snapshot_state_to_file_dm env IRQ_BASE table st _ _ vm _ (mmio_device_manager vmm));
      [reflexivity|].
    unfold snapshot_data_version.
    destruct Hv as [->|(tag & dv & -> & Ht & Hne)]; [reflexivity|].
    rewrite Ht. apply Z.eqb_neq in Hne. rewrite Hne. reflexivity.
Qed.

Lemma create_snapshot_device_check_witness :
  snd (create_snapshot (sample_env intel_vendor [1; 2; 3]) 5 sample_table (sample_vmm 12)
         (sample_params (Some "0.23.0")) VersionMap_new sample_world) =
    Err (CreateSnapshotError.TooManyDevices 12).
Proof.
  apply (proj1 (create_snapshot_device_check (sample_env intel_vendor [1; 2; 3]) 5 sample_table
                  (sample_vmm 12) (sample_params (Some "0.23.0")) VersionMap_new sample_world)
           (sample_state [intel_vcpu]) "0.23.0").
  all: first [ reflexivity | split; [reflexivity | split; reflexivity]
             | unfold FC_V0_23_MAX_DEVICES, FC_V0_23_IRQ_NUMBER; cbn; lia ].
Defined.


(** C10: the state file is opened without truncation, so after a successful
    [create_snapshot] over an existing state file [old] (distinct from the
    memory file) it holds the encoding followed by the bytes of [old] past
    the encoding's length, unchanged. *)
Theorem create_snapshot_keeps_stale_tail env IRQ_BASE table vmm params vm w old
    (Hpaths : mem_file_path params <> snapshot_path params)
    (Hold : fs w !! snapshot_path params = Some old)
    (Hok : snd (create_snapshot env IRQ_BASE table vmm params vm w) = Ok tt) :
  exists st dv new,
    vmm_save_state vmm = Ok st /\
    let bs := fst (snapshot_save env vm dv st) in
    fs (fst (create_snapshot env IRQ_BASE table vmm params vm w)) !! snapshot_path params
      = Some new /\
    new = bs ++ drop (length bs) old /\
    (forall i, (length bs <= i)%nat -> new !! i = old !! i).
Proof.
  revert Hok. rewrite create_snapshot_eq.
  destruct (vmm_save_state vmm) as [st|e]; [|discriminate].
  pose proof (snapshot_memory_to_file_frame env vmm (mem_file_path params) (snapshot_type params)
                (after_save w) (snapshot_path params) (not_eq_sym Hpaths)) as Hframe.
  destruct (snapshot_memory_to_file _ _ _ _ _) as [w2 [[]|e]]; [|discriminate].
  cbn [fst fs after_save] in Hframe. rewrite Hold in Hframe.
  destruct (open_error env (snapshot_path params)) as [e|] eqn:Eo.
  { unfold snapshot_state_to_file, open. rewrite Eo. discriminate. }
  rewrite (snapshot_state_to_file_run _ _ _ _ _ _ _ _ _ Eo), Hframe. cbn [default].
  destruct (snapshot_data_version _ _ _ _ _) as [dv|e]; [|discriminate].
  destruct (saved_result env vm dv st); [|discriminate].
  intros _. exists st, dv. eexists. split; [reflexivity|].
  cbv zeta. cbn [fst fs id]. rewrite lookup_insert_eq. split; [reflexivity|].
  unfold write_from_start. split; [reflexivity|].
  intros i Hi. rewrite lookup_app_r by exact Hi. rewrite lookup_drop. f_equal. lia.
Qed.

Lemma create_snapshot_keeps_stale_tail_witness :
  exists st dv new,
    vmm_save_state (sample_vmm 0) = Ok st /\
    let bs := fst (snapshot_save (sample_env intel_vendor [1; 2; 3]) VersionMap_new dv st) in
    fs (fst (create_snapshot (sample_env intel_vendor [1; 2; 3]) 5 sample_table (sample_vmm 0)
               (sample_params None) VersionMap_new sample_world)) !! "snap" = Some new /\
    new = bs ++ drop (length bs) (replicate 10 9) /\
    (forall i, (length bs <= i)%nat -> new !! i = replicate 10 9 !! i).
Proof.
  apply (create_snapshot_keeps_stale_tail (sample_env intel_vendor [1; 2; 3]) 5 sample_table
           (sample_vmm 0) (sample_params None) VersionMap_new sample_world).
  - discriminate.
  - reflexivity.
  - vm_compute. reflexivity.
Defined.

(** C8: [snapshot_state_from_file] fails with [SnapshotBackingFile] when the
    file does not open (a missing file gives [ENOENT]), with
    [SnapshotBackingFileMetadata] when its metadata cannot be read, and
    otherwise returns the loader's outcome, an error mapped to
    [DeserializeMicrovmState]; the loader is given the file's whole length. *)
Theorem snapshot_state_from_file_errors env sp vm w :
  let run := snapshot_state_from_file env sp vm w in
  (forall e, open_error env sp = Some e ->
     run = (w, Err (LoadSnapshotError.SnapshotBackingFile e))) /\
  (open_error env sp = None -> fs w !! sp = None ->
     snd run = Err (LoadSnapshotError.SnapshotBackingFile ENOENT)) /\
  (forall c, open_error env sp = None -> fs w !! sp = Some c ->
     (forall e, metadata_error env sp = Some e ->
        snd run = Err (LoadSnapshotError.SnapshotBackingFileMetadata e)) /\
     (metadata_error env sp = None ->
        snd run = match snapshot_load env c (Z.of_nat (length c)) vm with
                  | Ok s => Ok s
                  | Err e => Err (LoadSnapshotError.DeserializeMicrovmState e)
                  end /\
        trace (fst run) = trace w ++ [EvOpen sp opts_read; EvMetadata sp;
                                      EvSnapshotLoad sp (Z.of_nat (length c)); EvClose sp])).
Proof.
  intros run. unfold run, snapshot_state_from_file, open. split; [|split].
  - intros e ->. reflexivity.
  - intros -> Hc. unfold bind, map_err, get_file. cbn. rewrite Hc. reflexivity.
  - intros c -> Hc. unfold bind, map_err, get_file, set_file, emit, with_close. cbn.
    rewrite Hc. cbn. rewrite insert_id by exact Hc.
    unfold metadata_len. split.
    + intros e ->. reflexivity.
    + intros ->. unfold bind, get_file, emit, ret, snapshot_load_from, of_result. cbn.
      rewrite Hc. cbn. rewrite Hc. cbn.
      destruct (snapshot_load env c (Z.of_nat (length c)) vm); cbn;
        (split; [reflexivity | rewrite <- !app_assoc; reflexivity]).
Qed.

Lemma snapshot_state_from_file_errors_witness :
  snd (snapshot_state_from_file (sample_env intel_vendor []) "snap" VersionMap_new sample_world) =
    Ok (sample_state [intel_vcpu]).
Proof.
  destruct (snapshot_state_from_file_errors (sample_env intel_vendor []) "snap" VersionMap_new sample_world)
    as (_ & _ & H).
  destruct (H (replicate 10 9) eq_refl eq_refl) as [_ H2].
  apply (H2 eq_refl).
Defined.

(** ** Error messages *)

Section DisplayProps.
Variable dbg_DevicePersistError : DevicePersistError -> string.
Variable dbg_VcpuError : VcpuError -> string.
Variable dbg_VmError : VmError -> string.
Variable dbg_MemoryError : MemoryError -> string.
Variable fmt_MemoryError : MemoryError -> string.
Variable dbg_IoError : IoError -> string.
Variable fmt_IoError : IoError -> string.
Variable dbg_SnapshotError : SnapshotError -> string.
Variable fmt_StartMicrovmError : StartMicrovmError -> string.
Variable fmt_VmmError : VmmError -> string.
Variable IRQ_BASE : Z.

Ltac unfold_lits := cbv beta iota zeta delta [String.append].

(** The [Display] message of a [MicrovmStateError] determines its variant,
    whatever the renderings of the wrapped errors. *)
Theorem MicrovmStateError_fmt_discriminant e1 e2 :
  MicrovmStateError_fmt dbg_DevicePersistError dbg_VcpuError dbg_VmError e1 =
  MicrovmStateError_fmt dbg_DevicePersistError dbg_VcpuError dbg_VmError e2 ->
  MicrovmStateError_discriminant e1 = MicrovmStateError_discriminant e2.
Proof.
  destruct e1, e2; cbn [MicrovmStateError_fmt MicrovmStateError_discriminant];
    unfold_lits; intros H; first [reflexivity | discriminate H].
Qed.

(** The [Display] message of a [CreateSnapshotError] determines its variant,
    whatever the renderings of the wrapped errors. *)
Theorem CreateSnapshotError_fmt_discriminant e1 e2 :
  CreateSnapshotError_fmt dbg_DevicePersistError dbg_VcpuError dbg_VmError dbg_MemoryError
    dbg_IoError dbg_SnapshotError IRQ_BASE e1 =
  CreateSnapshotError_fmt dbg_DevicePersistError dbg_VcpuError dbg_VmError dbg_MemoryError
    dbg_IoError dbg_SnapshotError IRQ_BASE e2 ->
  CreateSnapshotError_discriminant e1 = CreateSnapshotError_discriminant e2.
Proof.
  destruct e1, e2; cbn [CreateSnapshotError_fmt CreateSnapshotError_discriminant];
    unfold_lits; intros H; first [reflexivity | discriminate H].
Qed.

(** The [Display] message of a [LoadSnapshotError] determines its variant,
    whatever the renderings of the wrapped errors. *)
Theorem LoadSnapshotError_fmt_discriminant e1 e2 :
  LoadSnapshotError_fmt fmt_MemoryError fmt_IoError dbg_SnapshotError fmt_StartMicrovmError
    fmt_VmmError e1 =
  LoadSnapshotError_fmt fmt_MemoryError fmt_IoError dbg_SnapshotError fmt_StartMicrovmError
    fmt_VmmError e2 ->
  LoadSnapshotError_discriminant e1 = LoadSnapshotError_discriminant e2.
Proof.
  destruct e1, e2; cbn [LoadSnapshotError_fmt LoadSnapshotError_discriminant];
    unfold_lits; intros H; first [reflexivity | discriminate H].
Qed.
End DisplayProps.

Lemma MicrovmStateError_fmt_discriminant_witness :
  MicrovmStateError_discriminant (MicrovmStateError.SaveVmState 1) =
  MicrovmStateError_discriminant (MicrovmStateError.SaveVmState 2).
Proof.
  apply (MicrovmStateError_fmt_discriminant (fun _ => "e") (fun _ => "e") (fun _ => "e")).
  reflexivity.
Defined.

Lemma CreateSnapshotError_fmt_discriminant_witness :
  CreateSnapshotError_discriminant (CreateSnapshotError.SnapshotBackingFile (io_error 1)) =
  CreateSnapshotError_discriminant (CreateSnapshotError.SnapshotBackingFile (io_error 2)).
Proof.
  apply (CreateSnapshotError_fmt_discriminant (fun _ => "e") (fun _ => "e") (fun _ => "e")
           (fun _ => "e") (fun _ => "e") (fun _ => "e") 5).
  reflexivity.
Defined.

Lemma LoadSnapshotError_fmt_discriminant_witness :
  LoadSnapshotError_discriminant (LoadSnapshotError.BuildMicroVm 1) =
  LoadSnapshotError_discriminant (LoadSnapshotError.BuildMicroVm 2).
Proof.
  apply (LoadSnapshotError_fmt_discriminant (fun _ => "e") (fun _ => "e") (fun _ => "e")
           (fun _ => "e") (fun _ => "e")).
  reflexivity.
Defined.

Lemma pretty_N_go_no_dot x s : no_dot s -> no_dot (pretty_N_go x s).
Proof.
  revert s. induction (N.lt_wf_0 x) as [x _ IH]; intros s Hs.
  destruct (decide (x = 0)%N) as [->|Hx]; [now rewrite pretty_N_go_0|].
  rewrite pretty_N_go_step by lia. apply IH; [apply N.div_lt; lia|].
  split; [|exact Hs]. unfold pretty_N_char. repeat case_match; discriminate.
Qed.

Lemma pretty_N_no_dot (x : N) : no_dot (pretty x).
Proof.
  unfold pretty, pretty_N. case_decide; [cbn; split; [discriminate|exact I]|].
  apply pretty_N_go_no_dot. exact I.
Qed.

Lemma pretty_Z_no_dot (n : Z) : no_dot (pretty n).
Proof.
  destruct n as [|p|p].
  - cbn. split; [discriminate|exact I].
  - change (pretty (Z.pos p)) with (pretty (N.pos p)). apply pretty_N_no_dot.
  - change (pretty (Z.neg p)) with (String "-" (pretty (N.pos p))).
    split; [discriminate | apply pretty_N_no_dot].
Qed.

Lemma no_dot_app_cancel a b t t' :
  no_dot a -> no_dot b -> a +:+ String "." t = b +:+ String "." t' -> a = b.
Proof.
  revert b. induction a as [|c a IH]; intros [|c' b] Ha Hb H.
  - reflexivity.
  - cbn in H. injection H as Heq _. destruct Hb as [Hb _]. congruence.
  - cbn in H. injection H as Heq _. destruct Ha as [Ha _]. congruence.
  - cbn in H. injection H as -> H. f_equal. apply IH; [apply Ha | apply Hb | exact H].
Qed.

(** The message of [TooManyDevices n] determines the device count [n]. *)
Theorem TooManyDevices_fmt_count dP dVc dVm dM dI dS IRQ_BASE n1 n2 :
  CreateSnapshotError_fmt dP dVc dVm dM dI dS IRQ_BASE (CreateSnapshotError.TooManyDevices n1) =
  CreateSnapshotError_fmt dP dVc dVm dM dI dS IRQ_BASE (CreateSnapshotError.TooManyDevices n2) ->
  n1 = n2.
Proof.
  cbn [CreateSnapshotError_fmt]. intros H.
  apply (inj (String.append "Too many devices attached: ")) in H.
  apply (inj pretty).
  eapply no_dot_app_cancel; [apply pretty_Z_no_dot | apply pretty_Z_no_dot | exact H].
Qed.

Lemma TooManyDevices_fmt_count_witness : (12 : Z) = 12.
Proof.
  apply (TooManyDevices_fmt_count (fun _ => "e") (fun _ => "e") (fun _ => "e") (fun _ => "e")
           (fun _ => "e") (fun _ => "e") 5).
  reflexivity.
Defined.

Lemma snapshot_state_to_file_frame env IRQ_BASE table st sp ver vm dm w p :
  p <> sp ->
  fs (fst (snapshot_state_to_file env IRQ_BASE table st sp ver vm dm w)) !! p = fs w !! p.
Proof.
  intros Hp. destruct (open_error env sp) as [e|] eqn:Eo.
  - unfold snapshot_state_to_file, open. rewrite Eo. reflexivity.
  - rewrite (snapshot_state_to_file_run _ _ _ _ _ _ _ _ _ Eo).
    destruct (snapshot_data_version _ _ _ _ _); cbn [fst fs];
      apply lookup_insert_ne; congruence.
Qed.

(** [create_snapshot] changes no file but the memory file and the state file. *)
Theorem create_snapshot_frame env IRQ_BASE table vmm params vm w p :
  p <> mem_file_path params -> p <> snapshot_path params ->
  fs (fst (create_snapshot env IRQ_BASE table vmm params vm w)) !! p = fs w !! p.
Proof.
  intros Hm Hs. rewrite create_snapshot_eq.
  destruct (vmm_save_state vmm) as [st|e]; [|reflexivity].
  pose proof (snapshot_memory_to_file_frame env vmm (mem_file_path params)
                (snapshot_type params) (after_save w) p Hm) as Hf.
  destruct (snapshot_memory_to_file _ _ _ _ _) as [w2 r2]. cbn [fst fs after_save] in Hf.
  destruct r2 as [[]|e]; [|exact Hf].
  pose proof (snapshot_state_to_file_frame env IRQ_BASE table st (snapshot_path params)
                (version params) vm (mmio_device_manager vmm) w2 p Hs) as Hg.
  destruct (snapshot_state_to_file _ _ _ _ _ _ _ _ _) as [w3 [[]|e]];
    cbn [fst] in Hg |- *; congruence.
Qed.

Lemma create_snapshot_frame_witness :
  fs (fst (create_snapshot (sample_env intel_vendor [1; 2; 3]) 5 sample_table (sample_vmm 0)
             (sample_params None) VersionMap_new sample_restore_world)) !! "other" = None.
Proof.
  rewrite (create_snapshot_frame (sample_env intel_vendor [1; 2; 3]) 5 sample_table (sample_vmm 0)
             (sample_params None) VersionMap_new sample_restore_world "other");
    [reflexivity | discriminate | discriminate].
Defined.

(** When the data version cannot be resolved (an unknown tag, or too many
    devices at the 0.23 data version), [create_snapshot] fails after the
    memory step has succeeded and the state file has been opened: the memory
    file is left as the memory step wrote it, and the state file is kept as
    it was, or created empty. *)
Theorem create_snapshot_version_error_keeps_files env IRQ_BASE table vmm params vm w st e
    (Hst : vmm_save_state vmm = Ok st) (Hmem : memory_step_ok env vmm params)
    (Hopen : open_error env (snapshot_path params) = None)
    (Hpaths : mem_file_path params <> snapshot_path params)
    (Hdv : snapshot_data_version IRQ_BASE table (version params) vm (mmio_device_manager vmm)
           = Err e) :
  let run := create_snapshot env IRQ_BASE table vmm params vm w in
  let mem_run := snapshot_memory_to_file env vmm (mem_file_path params) (snapshot_type params)
                   (after_save w) in
  snd run = Err e /\
  snd mem_run = Ok tt /\
  fs (fst run) !! mem_file_path params = fs (fst mem_run) !! mem_file_path params /\
  fs (fst run) !! snapshot_path params = Some (default [] (fs w !! snapshot_path params)).
Proof.
  intros run mem_run. unfold run, mem_run.
  pose proof (memory_step_ok_result env vmm params (after_save w) Hmem) as Hr.
  rewrite (create_snapshot_after_memory _ _ _ _ _ _ _ _ Hst Hmem).
  pose proof (snapshot_memory_to_file_frame env vmm (mem_file_path params)
                (snapshot_type params) (after_save w) (snapshot_path params)
                (not_eq_sym Hpaths)) as Hf.
  rewrite (snapshot_state_to_file_run _ _ _ _ _ _ _ _ _ Hopen), Hdv. cbn [fst snd fs].
  split; [reflexivity|]. split; [exact Hr|]. split.
  - apply lookup_insert_ne. exact (not_eq_sym Hpaths).
  - rewrite lookup_insert_eq, Hf. reflexivity.
Qed.

Lemma create_snapshot_version_error_keeps_files_witness :
  snd (create_snapshot (sample_env intel_vendor [1; 2; 3]) 5 sample_table (sample_vmm 0)
         (sample_params (Some "9.9.9")) VersionMap_new sample_world) =
    Err CreateSnapshotError.InvalidVersion /\
  fs (fst (create_snapshot (sample_env intel_vendor [1; 2; 3]) 5 sample_table (sample_vmm 0)
             (sample_params (Some "9.9.9")) VersionMap_new sample_world)) !! "snap" =
    Some (replicate 10 9).
Proof.
  destruct (create_snapshot_version_error_keeps_files (sample_env intel_vendor [1; 2; 3]) 5 sample_table
              (sample_vmm 0) (sample_params (Some "9.9.9")) VersionMap_new sample_world
              (sample_state [intel_vcpu]) CreateSnapshotError.InvalidVersion
              eq_refl (conj eq_refl (conj eq_refl eq_refl)) eq_refl ltac:(discriminate) eq_refl)
    as (H1 & _ & _ & H3).
  split; [exact H1 | exact H3].
Defined.

(** A failing open of the memory file changes nothing; a failing [set_len]
    leaves the memory file truncated to empty, closed, and nothing dumped;
    both come back as [MemoryBackingFile]. *)
Theorem snapshot_memory_to_file_backing_file_errors env vmm mp ty w :
  (forall e, open_error env mp = Some e ->
     snapshot_memory_to_file env vmm mp ty w = (w, Err (CreateSnapshotError.MemoryBackingFile e))) /\
  (forall e, open_error env mp = None -> set_len_error env mp = Some e ->
     snapshot_memory_to_file env vmm mp ty w =
       ({| fs := <[mp := []]> (fs w);
           trace := trace w ++ [EvOpen mp opts_write_create_truncate; EvClose mp] |},
        Err (CreateSnapshotError.MemoryBackingFile e))).
Proof.
  split.
  - intros e Ho. unfold snapshot_memory_to_file, open. rewrite Ho. reflexivity.
  - intros e Ho Hs. unfold snapshot_memory_to_file, open, set_len. rewrite Ho, Hs.
    unfold bind, map_err, with_close, get_file, set_file, emit, throw.
    cbn -[u64_wrap Lib.mem_size_mib resize].
    destruct (fs w !! mp); cbn -[u64_wrap Lib.mem_size_mib resize];
      rewrite <- app_assoc; reflexivity.
Qed.

Lemma snapshot_memory_to_file_backing_file_errors_witness :
  snd (snapshot_memory_to_file (set_len_fails (sample_env intel_vendor [])) (sample_vmm 0) "mem" Full
         sample_restore_world) = Err (CreateSnapshotError.MemoryBackingFile (io_error 28)) /\
  fs (fst (snapshot_memory_to_file (set_len_fails (sample_env intel_vendor [])) (sample_vmm 0) "mem" Full
             sample_restore_world)) !! "mem" = Some [].
Proof.
  rewrite (proj2 (snapshot_memory_to_file_backing_file_errors (set_len_fails (sample_env intel_vendor []))
                    (sample_vmm 0) "mem" Full sample_restore_world) (io_error 28) eq_refl eq_refl).
  split; [reflexivity|]. cbn [fst fs]. apply lookup_insert_eq.
Defined.

(** Only the CPUID of the first vCPU is compared with the host: the other vCPU
    states and the rest of the microVM state do not change the outcome. *)
Theorem validate_x86_64_cpu_vendor_first_vcpu_only env st st' v v' rest rest' :
  vcpu_states st = v :: rest -> vcpu_states st' = v' :: rest' -> cpuid v = cpuid v' ->
  validate_x86_64_cpu_vendor env st = validate_x86_64_cpu_vendor env st'.
Proof.
  intros H1 H2 H3. unfold validate_x86_64_cpu_vendor. rewrite H1, H2, H3. reflexivity.
Qed.

Lemma validate_x86_64_cpu_vendor_first_vcpu_only_witness :
  validate_x86_64_cpu_vendor (sample_env intel_vendor []) (sample_state [intel_vcpu; amd_vcpu]) =
  validate_x86_64_cpu_vendor (sample_env intel_vendor []) (sample_state [intel_vcpu]).
Proof.
  apply (validate_x86_64_cpu_vendor_first_vcpu_only _ _ _ intel_vcpu intel_vcpu [amd_vcpu] []);
    reflexivity.
Defined.

(** [guest_memory_from_file] fails with [MemoryBackingFile] when the file does
    not open (a missing file gives [ENOENT]); otherwise it returns the
    outcome of [GuestMemoryMmap::restore] on the file's bytes, an error
    mapped to [DeserializeMemory], and the file is closed. *)
Theorem guest_memory_from_file_errors env {EM SF} (renv : RestoreEnv EM SF) mp ms track w :
  let run := guest_memory_from_file env renv mp ms track w in
  (forall e, open_error env mp = Some e ->
     run = (w, Err (LoadSnapshotError.MemoryBackingFile e))) /\
  (open_error env mp = None -> fs w !! mp = None ->
     run = (w, Err (LoadSnapshotError.MemoryBackingFile ENOENT))) /\
  (forall c, open_error env mp = None -> fs w !! mp = Some c ->
     run = ({| fs := fs w; trace := trace w ++ [EvOpen mp opts_read; EvClose mp] |},
            match guest_memory_restore renv c ms track with
            | Ok gm => Ok gm
            | Err e => Err (LoadSnapshotError.DeserializeMemory e)
            end)).
Proof.
  intros run. unfold run, guest_memory_from_file, open. split; [|split].
  - intros e ->. reflexivity.
  - intros -> Hc. unfold bind, map_err, get_file, throw. cbn. rewrite Hc. reflexivity.
  - intros c -> Hc. unfold bind, map_err, get_file, set_file, emit, with_close, of_result. cbn.
    rewrite Hc. cbn. rewrite insert_id by exact Hc. rewrite Hc. cbn.
    destruct (guest_memory_restore renv c ms track); cbn; rewrite <- app_assoc; reflexivity.
Qed.

Lemma guest_memory_from_file_errors_witness :
  guest_memory_from_file (sample_env intel_vendor []) sample_renv "missing" (memory_state (sample_state []))
    false sample_restore_world =
  (sample_restore_world, Err (LoadSnapshotError.MemoryBackingFile ENOENT)).
Proof.
  apply (proj1 (proj2 (guest_memory_from_file_errors (sample_env intel_vendor []) sample_renv "missing"
                         (memory_state (sample_state [])) false sample_restore_world)));
    reflexivity.
Defined.

(** When the state file loads and the CPU vendors match, [restore_from_snapshot]
    reads and closes the state file, then opens and closes the memory file,
    and returns the built microVM; the memory restore and the builder get
    the same [enable_diff_snapshots] flag. *)
Theorem restore_from_snapshot_ok env {EM SF} (renv : RestoreEnv EM SF) em sf params vm w cs st cm :
  let sp := LoadSnapshotParams.snapshot_path params in
  let mp := LoadSnapshotParams.mem_file_path params in
  let track := LoadSnapshotParams.enable_diff_snapshots params in
  open_error env sp = None -> fs w !! sp = Some cs -> metadata_error env sp = None ->
  snapshot_load env cs (Z.of_nat (length cs)) vm = Ok st ->
  validate_x86_64_cpu_vendor env st = Done (Ok tt) ->
  open_error env mp = None -> fs w !! mp = Some cm ->
  restore_from_snapshot env renv em sf params vm w =
  ({| fs := fs w;
      trace := trace w ++ [EvOpen sp opts_read; EvMetadata sp;
                           EvSnapshotLoad sp (Z.of_nat (length cs)); EvClose sp;
                           EvOpen mp opts_read; EvClose mp] |},
   Done (match guest_memory_restore renv cm (memory_state st) track with
         | Err e => Err (LoadSnapshotError.DeserializeMemory e)
         | Ok gm =>
             match build_microvm_from_snapshot renv em st gm track sf with
             | Ok vmm => Ok vmm
             | Err e => Err (LoadSnapshotError.BuildMicroVm e)
             end
         end)).
Proof.
  intros sp mp track Hos Hcs Hmeta Hload Hvend Hom Hcm.
  assert (Hstate : snapshot_state_from_file env sp vm w =
    ({| fs := fs w; trace := trace w ++ [EvOpen sp opts_read; EvMetadata sp;
                                         EvSnapshotLoad sp (Z.of_nat (length cs)); EvClose sp] |},
     Ok st)).
  { unfold snapshot_state_from_file, open. rewrite Hos.
    unfold bind, map_err, get_file, set_file, emit, with_close. cbn. rewrite Hcs. cbn.
    rewrite insert_id by exact Hcs. unfold metadata_len. rewrite Hmeta.
    unfold bind, get_file, emit, ret, snapshot_load_from, of_result. cbn.
    rewrite Hcs. cbn. rewrite Hcs. cbn. rewrite Hload. cbn. rewrite <- !app_assoc. reflexivity. }
  unfold restore_from_snapshot. fold sp mp track. rewrite Hstate, Hvend.
  destruct (guest_memory_from_file_errors env renv mp (memory_state st) track
              {| fs := fs w; trace := trace w ++ [EvOpen sp opts_read; EvMetadata sp;
                   EvSnapshotLoad sp (Z.of_nat (length cs)); EvClose sp] |})
    as (_ & _ & Hmem).
  rewrite (Hmem cm Hom Hcm). cbn [fs trace].
  destruct (guest_memory_restore renv cm (memory_state st) track); cbn;
    rewrite <- !app_assoc; reflexivity.
Qed.

Lemma restore_from_snapshot_ok_witness :
  snd (restore_from_snapshot (sample_env intel_vendor []) sample_renv tt tt
         sample_load_params VersionMap_new sample_restore_world) =
  Done (Ok {| vmm_save_state := Ok (sample_state [intel_vcpu]);
              guest_memory := {| region_lens := [4] |};
              vmm_dirty_bitmap := Some []; mmio_device_manager := {| used_irqs_count := 0 |} |}).
Proof.
  rewrite (restore_from_snapshot_ok (sample_env intel_vendor []) sample_renv tt tt
             sample_load_params VersionMap_new sample_restore_world (replicate 10 9)
             (sample_state [intel_vcpu]) [0; 0; 0; 0]); try reflexivity.
Defined.

(** A failing state file read or CPU vendor check (error or panic) ends
    [restore_from_snapshot] before the memory file is opened or the microVM
    built. *)
Theorem restore_from_snapshot_stops_before_memory env {EM SF} (renv : RestoreEnv EM SF)
    em sf params vm w :
  let state_read := snapshot_state_from_file env (LoadSnapshotParams.snapshot_path params) vm w in
  let run := restore_from_snapshot env renv em sf params vm w in
  (forall e, snd state_read = Err e -> run = (fst state_read, Done (Err e))) /\
  (forall st e, snd state_read = Ok st -> validate_x86_64_cpu_vendor env st = Done (Err e) ->
     run = (fst state_read, Done (Err e))) /\
  (forall st msg, snd state_read = Ok st -> validate_x86_64_cpu_vendor env st = Panic msg ->
     run = (fst state_read, Panic msg)).
Proof.
  intros state_read run. unfold run, restore_from_snapshot. fold state_read.
  destruct state_read as [w1 [st|e]]; cbn [fst snd]; (split; [|split]).
  - discriminate.
  - intros st' e He Hv. injection He as <-. rewrite Hv. reflexivity.
  - intros st' msg He Hv. injection He as <-. rewrite Hv. reflexivity.
  - intros e' He. injection He as <-. reflexivity.
  - discriminate.
  - discriminate.
Qed.

Lemma restore_from_snapshot_stops_before_memory_witness :
  restore_from_snapshot (sample_env intel_vendor []) sample_renv tt tt
    {| LoadSnapshotParams.snapshot_path := "missing"; LoadSnapshotParams.mem_file_path := "mem";
       LoadSnapshotParams.enable_diff_snapshots := false |} VersionMap_new sample_restore_world =
  (sample_restore_world, Done (Err (LoadSnapshotError.SnapshotBackingFile ENOENT))).
Proof.
  apply (proj1 (restore_from_snapshot_stops_before_memory (sample_env intel_vendor [])
                  sample_renv tt tt
                  {| LoadSnapshotParams.snapshot_path := "missing";
                     LoadSnapshotParams.mem_file_path := "mem";
                     LoadSnapshotParams.enable_diff_snapshots := false |}
                  VersionMap_new sample_restore_world)).
  reflexivity.
Defined.

(** A state file whose microVM state has no vCPU state makes
    [restore_from_snapshot] panic. *)
Theorem restore_from_snapshot_panics_without_vcpus env {EM SF} (renv : RestoreEnv EM SF)
    em sf params vm w st :
  snd (snapshot_state_from_file env (LoadSnapshotParams.snapshot_path params) vm w) = Ok st ->
  vcpu_states st = [] ->
  exists msg,
    restore_from_snapshot env renv em sf params vm w =
    (fst (snapshot_state_from_file env (LoadSnapshotParams.snapshot_path params) vm w), Panic msg).
Proof.
  intros Hs Hv. unfold restore_from_snapshot.
  destruct (snapshot_state_from_file _ _ _ _) as [w1 [st'|e]]; cbn in Hs; [|discriminate].
  injection Hs as <-. unfold validate_x86_64_cpu_vendor, get_vendor_id_from_host.
  rewrite Hv. eexists. reflexivity.
Qed.

Lemma restore_from_snapshot_panics_without_vcpus_witness :
  exists msg,
    snd (restore_from_snapshot (with_loaded (sample_env intel_vendor []) (sample_state []))
           sample_renv tt tt sample_load_params VersionMap_new sample_restore_world) = Panic msg.
Proof.
  destruct (restore_from_snapshot_panics_without_vcpus
              (with_loaded (sample_env intel_vendor []) (sample_state []))
              sample_renv tt tt sample_load_params VersionMap_new sample_restore_world
              (sample_state []) eq_refl eq_refl) as [msg Hr].
  exists msg. rewrite Hr. reflexivity.
Defined.
